(** * Student Academic Risk Prediction API: a shallow embedding

  The development follows the Python modules of the backend:

  - [Schemas]      : [schemas.py], the seven-field [StudentData] record and
                     the static [Field] bounds of each attribute;
  - [ModelLoader]  : [model_loader.py], the three module-level globals, the
                     startup loader and the three getters;
  - [Main]         : [main.py], the [/predict] handler, the startup hook and
                     the way the framework drives them;
  - [TestBackend]  : [test_backend.py], the client script that tests the
                     three routes.

  Python values are modelled as follows.  A [float] is the rational it
  denotes (type [Q]; NaN and the infinities are outside the model), an
  [int] is a [Z], a [str] is a [string], a 2-D array is the list of its
  rows, an int stored in a float64 array being rounded to the nearest
  double.  The serialized estimators are opaque objects: each method is a
  function that returns a value or raises.  Effects (reads and writes of the
  module-level globals, calls into the opaque objects, raised exceptions)
  are threaded through a small state / trace / error monad. *)

From Stdlib Require Import ZArith QArith Qround Qabs String Ascii List Bool Lia Lqa.
From Stdlib Require Import DecimalString.
Import ListNotations.

Local Open Scope string_scope.
Local Open Scope list_scope.

(* ===================================================================== *)
(** ** Python values, exceptions and opaque objects                       *)
(* ===================================================================== *)

Module Py.

(** Exceptions that derive from [Exception]: the framework's
    [HTTPException] and every other class (an [IndexError] of a subscript, or
    whatever an opaque estimator raises). *)
Inductive exn : Type :=
| HTTPException (status_code : Z) (detail : string)
| PyException (cls : string) (msg : string).

Inductive result (A : Type) : Type :=
| Ok (a : A)
| Raise (e : exn).
Arguments Ok {A} a.
Arguments Raise {A} e.

(** A Python number held in a list before numpy sees it. *)
Inductive number : Type :=
| PyInt (z : Z)
| PyFloat (q : Q).

(** A numpy scalar, as found in the array a classifier returns. *)
Inductive npscalar : Type :=
| NpInt (z : Z)
| NpFloat (q : Q).

(** An array of two dimensions: the list of its rows, each entry the exact
    value it holds.  The dtype is not recorded: an entry of a float64 array
    is the rational of its double, an entry of an object array the number
    stored. *)
Definition ndarray : Type := list (list Q).

(** [a.reshape(1, -1)]: the whole vector becomes the single row. *)
Definition reshape_1 (a : list Q) : ndarray := [a].

Definition Qltb (x y : Q) : bool := negb (Qle_bool y x).

(** [x == 1] for a numpy scalar. *)
Definition eq_one (x : npscalar) : bool :=
  match x with
  | NpInt z => (z =? 1)%Z
  | NpFloat q => Qeq_bool q 1
  end.

(** Truncation toward zero. *)
Definition Qtrunc (q : Q) : Z :=
  if Qle_bool 0 q then Qfloor q else Qceiling q.

(** [int(x)] for a numpy scalar. *)
Definition int (x : npscalar) : Z :=
  match x with
  | NpInt z => z
  | NpFloat q => Qtrunc q
  end.

(** Nearest integer, ties to the even one. *)
Definition round_half_even (q : Q) : Z :=
  let f := Qfloor q in
  match (q - inject_Z f ?= 1 # 2)%Q with
  | Lt => f
  | Gt => (f + 1)%Z
  | Eq => if Z.even f then f else (f + 1)%Z
  end.

(** The double nearest to an integer, ties to the even significand: exact up
    to [2 ^ 53], beyond that the 53 leading bits rounded.  (No overflow is
    modelled: the integers converted below are under [2 ^ 64].) *)
Definition float64_of_Z (z : Z) : Q :=
  let a := Z.abs z in
  if (a <? 2 ^ 53)%Z then inject_Z z
  else
    let e := (Z.log2 a - 52)%Z in
    inject_Z (Z.sgn z
              * (round_half_even (inject_Z a / inject_Z (2 ^ e)) * 2 ^ e)).

(** The value of a number of a list once stored in a float64 array. *)
Definition to_float (n : number) : Q :=
  match n with
  | PyInt z => float64_of_Z z
  | PyFloat q => q
  end.

(** The value of a number of a list kept as the Python object it is. *)
Definition as_object (n : number) : Q :=
  match n with
  | PyInt z => inject_Z z
  | PyFloat q => q
  end.

(** Whether numpy finds a C integer type for a number: an int from
    [- 2 ^ 63] up to [2 ^ 64 - 1] does (int64 or uint64), a larger one
    does not; a float is not concerned. *)
Definition fits_c_integer (n : number) : bool :=
  match n with
  | PyInt z => ((- 2 ^ 63 <=? z) && (z <? 2 ^ 64))%Z
  | PyFloat _ => true
  end.

(** [np.array(l)] for a list holding at least one float: a one-dimensional
    float64 array, the ints converted to the nearest double, when every int
    fits a C integer; an object array holding the numbers as they are when
    one does not. *)
Definition np_array (l : list number) : list Q :=
  if forallb fits_c_integer l then map to_float l else map as_object l.

(** [round(x, 2)]: the decimal with two fractional digits nearest to the
    exact value of [x], ties to even.  (CPython then stores the double
    nearest to that decimal; the embedding keeps the decimal.) *)
Definition round2 (x : Q) : Q := (round_half_even (x * 100) # 100)%Q.

(** [str(n)] for an int. *)
Definition str_int (z : Z) : string := NilZero.string_of_int (Z.to_int z).

(** [sep.join(l)]. *)
Definition join (sep : string) (l : list string) : string :=
  String.concat sep l.

(** [needle in haystack] for strings. *)
Fixpoint contains (needle haystack : string) : bool :=
  String.prefix needle haystack
  || match haystack with
     | EmptyString => false
     | String _ rest => contains needle rest
     end.

Definition ends_with_sep (s : string) : bool :=
  match String.get (String.length s - 1) s with
  | Some c => Ascii.eqb c "/"
  | None => false
  end.

(** [os.path.join(a, b)] on a POSIX system. *)
Definition os_path_join (a b : string) : string :=
  if String.prefix "/" b then b
  else if (String.eqb a "" || ends_with_sep a)%bool then a ++ b
  else a ++ "/" ++ b.

(** A deserialized estimator.  Python is duck typed: any of the three
    methods can be called on any object, and the call returns or raises
    (an object without the method raises [AttributeError]). *)
Record object : Type := {
  transform : ndarray -> result ndarray;
  predict : ndarray -> result (list npscalar);
  predict_proba : ndarray -> result (list (list Q))
}.

(** A JSON-serializable value, as the handler returns it. *)
#[warnings="-register-all"]
Inductive json : Type :=
| JInt (z : Z)
| JFloat (q : Q)
| JStr (s : string)
| JDict (items : list (string * json)).

Definition keys (j : json) : list string :=
  match j with
  | JDict items => map fst items
  | _ => []
  end.

Definition lookup (k : string) (j : json) : option json :=
  match j with
  | JDict items =>
      match find (fun kv => String.eqb (fst kv) k) items with
      | Some kv => Some (snd kv)
      | None => None
      end
  | _ => None
  end.

End Py.
Import Py.

(* ===================================================================== *)
(** ** The effect monad                                                   *)
(* ===================================================================== *)

(** Names of the variables through which the opaque objects are reached, and
    of their methods. *)
Inductive receiver : Type := the_scaler | the_logistic_model | the_decision_tree_model.
Inductive method : Type := m_transform | m_predict | m_predict_proba.

(** What a run does that is visible outside the interpreter. *)
Inductive event : Type :=
  | JoblibLoad (path : string)
  | Print (line : string)
  | Call (r : receiver) (m : method) (arg : ndarray).

(** The module-level globals of [model_loader.py]; [None] is Python's. *)
Record globals : Type := {
  logistic_model : option object;
  decision_tree_model : option object;
  scaler : option object
}.

(** A computation reads and writes the globals, appends to the trace, and
    returns or raises.  A raise keeps the globals and the trace reached so
    far: Python does not roll back. *)
Definition M (A : Type) : Type := globals -> result A * globals * list event.

Definition ret {A} (a : A) : M A := fun g => (Ok a, g, []).

Definition bind {A B} (m : M A) (f : A -> M B) : M B :=
  fun g =>
    match m g with
    | (Ok a, g1, t1) =>
        match f a g1 with
        | (r, g2, t2) => (r, g2, t1 ++ t2)
        end
    | (Raise e, g1, t1) => (Raise e, g1, t1)
    end.

Definition raise {A} (e : exn) : M A := fun g => (Raise e, g, []).

(** [try: body  except Exception as e: handler(e)]. *)
Definition try_except {A} (body : M A) (handler : exn -> M A) : M A :=
  fun g =>
    match body g with
    | (Ok a, g1, t1) => (Ok a, g1, t1)
    | (Raise e, g1, t1) =>
        match handler e g1 with
        | (r, g2, t2) => (r, g2, t1 ++ t2)
        end
    end.

Definition emit (e : event) : M unit := fun g => (Ok tt, g, [e]).

Definition lift {A} (r : result A) : M A := fun g => (r, g, []).

Declare Scope monad_scope.
Delimit Scope monad_scope with monad.
Notation "x <- m ;; k" := (bind m (fun x => k))
  (at level 61, m at next level, right associativity) : monad_scope.
Notation "m ;;; k" := (bind m (fun _ => k))
  (at level 61, right associativity) : monad_scope.
Local Open Scope monad_scope.

(** [obj.method(arg)] through the variable [r]: the call is recorded, then
    the object answers. *)
Definition call {A} (r : receiver) (m : method) (f : ndarray -> result A)
    (arg : ndarray) : M A :=
  emit (Call r m arg) ;;; lift (f arg).

(** [a[i]] for a non-negative literal [i]. *)
Definition subscript {A} (a : list A) (i : nat) : M A :=
  match nth_error a i with
  | Some x => ret x
  | None => raise (PyException "IndexError" "index out of bounds")
  end.

(* ===================================================================== *)
(** ** schemas.py                                                         *)
(* ===================================================================== *)

Module Schemas.

(** [Field(..., ge=lo, le=hi)]: the optional static bounds of one
    attribute. *)
Record Field (A : Type) : Type := { ge : option A; le : option A }.
Arguments ge {A} f.
Arguments le {A} f.

Definition check {A} (leb : A -> A -> bool) (f : Field A) (v : A) : bool :=
  match ge f with Some lo => leb lo v | None => true end
  && match le f with Some hi => leb v hi | None => true end.

(** A parsed body.  The float fields hold finite numbers: a body with
    [NaN] or an infinity, which the JSON parser lets through, is not
    represented, and nothing below speaks of the answer to one. *)
Record StudentData : Type := {
  attendance : Q;
  study_hours : Q;
  assignments_completed : Z;
  quiz_score : Q;
  midterm_score : Q;
  internet_access : Z;
  past_failures : Z
}.

Definition attendance_field : Field Q := {| ge := Some 0%Q; le := Some 100%Q |}.
Definition study_hours_field : Field Q := {| ge := Some 0%Q; le := None |}.
Definition assignments_completed_field : Field Z := {| ge := Some 0%Z; le := None |}.
Definition quiz_score_field : Field Q := {| ge := Some 0%Q; le := Some 100%Q |}.
Definition midterm_score_field : Field Q := {| ge := Some 0%Q; le := Some 100%Q |}.
Definition internet_access_field : Field Z := {| ge := Some 0%Z; le := Some 1%Z |}.
Definition past_failures_field : Field Z := {| ge := Some 0%Z; le := None |}.

(** Validation of a parsed body against the model: every attribute is
    checked against its own [Field]. *)
Definition validate (d : StudentData) : bool :=
  check Qle_bool attendance_field (attendance d)
  && check Qle_bool study_hours_field (study_hours d)
  && check Z.leb assignments_completed_field (assignments_completed d)
  && check Qle_bool quiz_score_field (quiz_score d)
  && check Qle_bool midterm_score_field (midterm_score d)
  && check Z.leb internet_access_field (internet_access d)
  && check Z.leb past_failures_field (past_failures d).

End Schemas.
Import Schemas.

(* ===================================================================== *)
(** ** model_loader.py                                                    *)
(* ===================================================================== *)

Module ModelLoader.
Section Loader.

(** [os.path.dirname(__file__)]: where the module lives. *)
Variable dirname_file : string.

(** [joblib.load]: what each path deserializes to, or the exception raised
    (missing file, corrupt pickle). *)
Variable joblib_load : string -> result object.

Definition MODELS_DIR : string := os_path_join dirname_file "models".

Definition load (path : string) : M object :=
  emit (JoblibLoad path) ;;; lift (joblib_load path).

Definition set_logistic_model (o : object) : M unit :=
  fun g => (Ok tt,
            {| logistic_model := Some o;
               decision_tree_model := decision_tree_model g;
               scaler := scaler g |}, []).

Definition set_decision_tree_model (o : object) : M unit :=
  fun g => (Ok tt,
            {| logistic_model := logistic_model g;
               decision_tree_model := Some o;
               scaler := scaler g |}, []).

Definition set_scaler (o : object) : M unit :=
  fun g => (Ok tt,
            {| logistic_model := logistic_model g;
               decision_tree_model := decision_tree_model g;
               scaler := Some o |}, []).

Definition logistic_model_path : string :=
  os_path_join MODELS_DIR "logistic_model.joblib".
Definition decision_tree_model_path : string :=
  os_path_join MODELS_DIR "decision_tree_model.joblib".
Definition scaler_path : string :=
  os_path_join MODELS_DIR "scaler.joblib".

Definition load_models : M unit :=
  o <- load logistic_model_path ;;
  set_logistic_model o ;;;
  o <- load decision_tree_model_path ;;
  set_decision_tree_model o ;;;
  o <- load scaler_path ;;
  set_scaler o ;;;
  emit (Print "All models loaded successfully!").

End Loader.

(** The state of the module right after import. *)
Definition initial : globals :=
  {| logistic_model := None; decision_tree_model := None; scaler := None |}.

Definition get_logistic_model : M (option object) :=
  fun g => (Ok (logistic_model g), g, []).

Definition get_decision_tree_model : M (option object) :=
  fun g => (Ok (decision_tree_model g), g, []).

Definition get_scaler : M (option object) :=
  fun g => (Ok (scaler g), g, []).

End ModelLoader.

(* ===================================================================== *)
(** ** main.py                                                            *)
(* ===================================================================== *)

Module Main.
Import ModelLoader.

(** The phrase chosen by [prediction == 1]. *)
Definition risk_phrase (prediction : npscalar) : string :=
  if eq_one prediction then "at risk" else "not at risk".

Definition explanation_parts (student_data : StudentData) : list string :=
  (if Qltb (midterm_score student_data) 70 then ["low midterm score"] else [])
  ++ (if Qltb (quiz_score student_data) 70 then ["low quiz score"] else [])
  ++ (if Qltb (study_hours student_data) 10 then ["low study hours"] else [])
  ++ (if Qltb (attendance student_data) 75 then ["low attendance"] else []).

(** The three f-strings of the logistic-regression explanation.  The
    subscripts [[0]] and [[-1]] are guarded by the tests on the list, so
    their defaults are never used. *)
Definition explanation_text (logistic_prediction : npscalar)
    (explanation_parts : list string) : string :=
  match explanation_parts with
  | _ :: _ =>
      if (length explanation_parts =? 1)%nat then
        "The model predicted the student is " ++ risk_phrase logistic_prediction
        ++ " because of " ++ nth 0 explanation_parts "" ++ "."
      else
        "The model predicted the student is " ++ risk_phrase logistic_prediction
        ++ " because of " ++ join ", " (removelast explanation_parts)
        ++ ", and " ++ last explanation_parts "" ++ "."
  | [] =>
      "The model predicted the student is " ++ risk_phrase logistic_prediction
      ++ " based on overall academic performance indicators."
  end.

Definition dt_explanation_parts (student_data : StudentData) : list string :=
  (if (past_failures student_data >? 0)%Z
   then [(str_int (past_failures student_data) ++ " past failure(s)")%string]
   else ["no past failures"])
  ++ (if (internet_access student_data =? 1)%Z
      then ["internet access available"]
      else ["no internet access"]).

Definition dt_explanation_text (decision_tree_prediction : npscalar)
    (dt_explanation_parts : list string) : string :=
  "The model predicted the student is " ++ risk_phrase decision_tree_prediction
  ++ " because of " ++ join ", " dt_explanation_parts ++ ".".

Definition input_data (student_data : StudentData) : list number :=
  [ PyFloat (attendance student_data);
    PyFloat (study_hours student_data);
    PyInt (assignments_completed student_data);
    PyFloat (quiz_score student_data);
    PyFloat (midterm_score student_data);
    PyInt (internet_access student_data);
    PyInt (past_failures student_data) ].

Definition input_array (student_data : StudentData) : ndarray :=
  reshape_1 (np_array (input_data student_data)).

Definition models_not_loaded : exn :=
  HTTPException 500 "Models not loaded. Please restart the application.".

Section Handler.

(** [str(e)]: how an exception renders itself; it is the exception class
    that decides. *)
Variable str : exn -> string.

Definition prediction_failed (e : exn) : exn :=
  HTTPException 500 ("Prediction failed: " ++ str e).

(** The body of the [try] block of [predict]. *)
Definition predict_body (student_data : StudentData) : M json :=
  logistic_model <- get_logistic_model ;;
  decision_tree_model <- get_decision_tree_model ;;
  scaler <- get_scaler ;;
  match logistic_model, decision_tree_model, scaler with
  | Some logistic_model, Some decision_tree_model, Some scaler =>
      let input_array := input_array student_data in
      scaled_input <- call the_scaler m_transform (transform scaler) input_array ;;
      a <- call the_logistic_model m_predict (predict logistic_model) scaled_input ;;
      logistic_prediction <- subscript a 0 ;;
      a <- call the_logistic_model m_predict_proba
             (predict_proba logistic_model) scaled_input ;;
      logistic_proba <- subscript a 0 ;;
      p <- subscript logistic_proba 1 ;;
      let risk_probability := round2 p in
      let explanation_parts := explanation_parts student_data in
      let explanation_text := explanation_text logistic_prediction explanation_parts in
      a <- call the_decision_tree_model m_predict
             (predict decision_tree_model) input_array ;;
      decision_tree_prediction <- subscript a 0 ;;
      let dt_explanation_parts := dt_explanation_parts student_data in
      let dt_explanation_text :=
        dt_explanation_text decision_tree_prediction dt_explanation_parts in
      ret (JDict
             [ ("logistic_regression",
                JDict [ ("prediction", JInt (int logistic_prediction));
                        ("risk_probability", JFloat risk_probability);
                        ("explanation", JStr explanation_text) ]);
               ("decision_tree",
                JDict [ ("prediction", JInt (int decision_tree_prediction));
                        ("explanation", JStr dt_explanation_text) ]) ])
  | _, _, _ => raise models_not_loaded
  end.

(** [async def predict(student_data: StudentData)]. *)
Definition predict (student_data : StudentData) : M json :=
  try_except (predict_body student_data)
             (fun e => raise (prediction_failed e)).

(** What the client of [POST /predict] receives. *)
Inductive http_response : Type :=
| Http200 (body : json)
| Http422
| HttpError (status_code : Z) (detail : string)
| InternalServerError.

(** [@app.post("/predict")] with a [StudentData] parameter: the framework
    validates the body against the model first and answers 422 without
    calling the handler when validation fails; otherwise it calls the handler
    and turns a raised [HTTPException] into a response of that status. *)
Definition post_predict (body : StudentData) : M http_response :=
  if validate body then
    fun g =>
      match predict body g with
      | (Ok j, g1, t) => (Ok (Http200 j), g1, t)
      | (Raise (HTTPException status_code detail), g1, t) =>
          (Ok (HttpError status_code detail), g1, t)
      | (Raise (PyException _ _), g1, t) => (Ok InternalServerError, g1, t)
      end
  else ret Http422.

Variable dirname_file : string.
Variable joblib_load : string -> result object.

(** [@app.on_event("startup")]. *)
Definition startup_event : M unit := load_models dirname_file joblib_load.

(** The requests served one after the other. *)
Fixpoint serve (requests : list StudentData) : M (list http_response) :=
  match requests with
  | [] => ret []
  | body :: rest =>
      r <- post_predict body ;;
      rs <- serve rest ;;
      ret (r :: rs)
  end.

(** The life of the process: the framework runs the startup hook once,
    before the first request, and serves requests only if the hook
    returned. *)
Definition app (requests : list StudentData) : M (list http_response) :=
  startup_event ;;; serve requests.

End Handler.

(** [@app.get("/")]. *)
Definition root : M json :=
  ret (JDict
         [ ("message", JStr "Student Academic Risk Prediction API");
           ("version", JStr "1.0.0");
           ("endpoints",
            JDict [ ("predict", JStr "/predict (POST)");
                    ("docs", JStr "/docs");
                    ("health", JStr "/health") ]) ]).

(** [@app.get("/health")]. *)
Definition health_check : M json :=
  ret (JDict [ ("status", JStr "healthy"); ("message", JStr "API is running") ]).

End Main.

(* ===================================================================== *)
(** ** A concrete deployment, for running the model                       *)
(* ===================================================================== *)

Module Demo.
Import ModelLoader Main.

Definition no_attribute {A} (name : string) : ndarray -> result A :=
  fun _ => Raise (PyException "AttributeError" ("object has no attribute '" ++ name ++ "'")).

Fixpoint scale_row (row means scales : list Q) : list Q :=
  match row, means, scales with
  | x :: row', mu :: means', s :: scales' =>
      ((x - mu) / s)%Q :: scale_row row' means' scales'
  | _, _, _ => []
  end.

(** A fitted standard scaler: column-wise [(x - mean) / scale]. *)
Definition standard_scaler (means scales : list Q) : object :=
  {| transform := fun x => Ok (map (fun row => scale_row row means scales) x);
     Py.predict := no_attribute "predict";
     predict_proba := no_attribute "predict_proba" |}.

Fixpoint dot (w x : list Q) : Q :=
  match w, x with
  | wi :: w', xi :: x' => (wi * xi + dot w' x')%Q
  | _, _ => 0%Q
  end.

(** A linear classifier: class 1 when the score is positive; the class-1
    probability is a rational squashing of the score into (0, 1). *)
Definition linear_classifier (coef : list Q) (intercept : Q) : object :=
  let score row := (dot coef row + intercept)%Q in
  let proba row := ((1 # 2) + score row / (2 * (1 + Qabs (score row))))%Q in
  {| transform := no_attribute "transform";
     Py.predict := fun x =>
       Ok (map (fun row => NpInt (if Qltb 0 (score row) then 1 else 0)) x);
     predict_proba := fun x =>
       Ok (map (fun row => [(1 - proba row)%Q; proba row]) x) |}.

(** A depth-two tree on attendance (column 0) and past failures
    (column 6). *)
Definition stump (x : ndarray) : result (list npscalar) :=
  Ok (map (fun row =>
             NpInt (if Qltb (nth 0 row 0%Q) 60 then 1
                    else if Qltb (3 # 2) (nth 6 row 0%Q) then 1 else 0)) x).

Definition tree_classifier : object :=
  {| transform := no_attribute "transform";
     Py.predict := stump;
     predict_proba := fun x =>
       match stump x with
       | Ok l => Ok (map (fun c => if eq_one c then [0%Q; 1%Q] else [1%Q; 0%Q]) l)
       | Raise e => Raise e
       end |}.

Definition the_scaler_object : object :=
  standard_scaler [80; 8; 6; 70; 70; 1 # 2; 1]%Q [10; 4; 3; 15; 15; 1 # 2; 1]%Q.

Definition the_logistic_object : object :=
  linear_classifier [-1; -1 # 2; -1 # 4; -1; -3 # 2; -1 # 10; 1]%Q (-3 # 10)%Q.

Definition loaded : globals :=
  {| logistic_model := Some the_logistic_object;
     decision_tree_model := Some tree_classifier;
     scaler := Some the_scaler_object |}.

(** The files of a deployment in [/srv/backend]. *)
Definition files (path : string) : result object :=
  if String.eqb path "/srv/backend/models/logistic_model.joblib" then Ok the_logistic_object
  else if String.eqb path "/srv/backend/models/decision_tree_model.joblib" then Ok tree_classifier
  else if String.eqb path "/srv/backend/models/scaler.joblib" then Ok the_scaler_object
  else Raise (PyException "FileNotFoundError" ("No such file or directory: '" ++ path ++ "'")).

(** [str(e)]: the framework's exception prints status and detail, the others
    their message. *)
Definition str (e : exn) : string :=
  match e with
  | HTTPException status_code detail => str_int status_code ++ ": " ++ detail
  | PyException _ msg => msg
  end.

(** The example body of the schema's documentation. *)
Definition example : StudentData :=
  {| attendance := 85.5; study_hours := 10; assignments_completed := 8;
     quiz_score := 75; midterm_score := 80; internet_access := 1;
     past_failures := 0 |}.

(** A student below every threshold, with past failures and no internet. *)
Definition struggling : StudentData :=
  {| attendance := 55; study_hours := 2.5; assignments_completed := 1;
     quiz_score := 40; midterm_score := 35.5; internet_access := 0;
     past_failures := 3 |}.

(** A student whose only weak mark is the midterm. *)
Definition weak_midterm : StudentData :=
  {| attendance := 95; study_hours := 20; assignments_completed := 10;
     quiz_score := 90; midterm_score := 69.5; internet_access := 1;
     past_failures := 0 |}.

(** A body that breaks one bound only. *)
Definition out_of_range : StudentData :=
  {| attendance := 100.5; study_hours := 10; assignments_completed := 8;
     quiz_score := 75; midterm_score := 80; internet_access := 1;
     past_failures := 0 |}.


(** A deployment whose decision-tree file is missing. *)
Definition files_without_tree (path : string) : result object :=
  if String.eqb path "/srv/backend/models/decision_tree_model.joblib"
  then Raise (PyException "FileNotFoundError"
                ("No such file or directory: '" ++ path ++ "'"))
  else files path.

(** A logistic model fitted on a single class: one column of probabilities. *)
Definition one_class_classifier : object :=
  {| transform := no_attribute "transform";
     Py.predict := fun x => Ok (map (fun _ => NpInt 0) x);
     predict_proba := fun x => Ok (map (fun _ => [1%Q]) x) |}.

(** A logistic model whose [predict] fails. *)
Definition broken_classifier : object :=
  {| transform := no_attribute "transform";
     Py.predict := fun _ => Raise (PyException "ValueError" "X has 7 features, but 5 were expected");
     predict_proba := fun _ => Raise (PyException "ValueError" "X has 7 features, but 5 were expected") |}.

Definition loaded_with (lm : object) : globals :=
  {| logistic_model := Some lm;
     decision_tree_model := Some tree_classifier;
     scaler := Some the_scaler_object |}.

End Demo.

(* ===================================================================== *)
(** ** test_backend.py                                                    *)
(* ===================================================================== *)

(** The script is a client of the running server.  It holds no state of
    its own: its functions run in [M] with the globals carried along
    untouched.  What the network and the [requests] library do is a
    parameter; the two-second sleep before the first request is not
    modelled. *)
Module TestBackend.

(** What [requests.get] and [requests.post] return: the status, and what
    [response.json()] gives, which raises when the body is not JSON. *)
Record Response : Type := {
  status_code : Z;
  text : string;
  json : result Py.json
}.

Definition BASE_URL : string := "http://127.0.0.1:8000".

Definition newline : string := String (ascii_of_nat 10) "".

(** ["=" * n]. *)
Fixpoint repeat_string (s : string) (n : nat) : string :=
  match n with
  | O => ""
  | S n' => s ++ repeat_string s n'
  end.

(** [try: body  except C as e: handler(e)], where [catches] tells the
    instances of [C]; any other exception goes through. *)
Definition try_except_class {A} (catches : exn -> bool)
    (body : M A) (handler : exn -> M A) : M A :=
  fun g =>
    match body g with
    | (Ok a, g1, t1) => (Ok a, g1, t1)
    | (Raise e, g1, t1) =>
        if catches e then
          match handler e g1 with
          | (r, g2, t2) => (r, g2, t1 ++ t2)
          end
        else (Raise e, g1, t1)
    end.

(** [d.get(key)] on what [response.json()] returned: a dictionary answers,
    anything else has no [get]. *)
Definition get (d : Py.json) (key : string) : M (option Py.json) :=
  match d with
  | JDict _ => ret (lookup key d)
  | _ => raise (PyException "AttributeError" "object has no attribute 'get'")
  end.

Definition print (line : string) : M unit := emit (Print line).

Definition sample_data : Py.json :=
  JDict [ ("attendance", JFloat 85.5);
          ("study_hours", JFloat 10);
          ("assignments_completed", JInt 8);
          ("quiz_score", JFloat 75);
          ("midterm_score", JFloat 80);
          ("internet_access", JInt 1);
          ("past_failures", JInt 0) ].

(** [sum(1 for _, result in results if result)]. *)
Fixpoint count_passed (results : list (string * bool)) : Z :=
  match results with
  | [] => 0
  | (_, result) :: rest =>
      if result then (1 + count_passed rest)%Z else count_passed rest
  end.

Section Client.

(** [requests.get(url, timeout=...)]: a response, or the exception raised
    (connection refused, timeout). *)
Variable requests_get : string -> result Response.

(** [requests.post(url, json=..., headers=..., timeout=...)]. *)
Variable requests_post : string -> Py.json -> result Response.

(** [isinstance(e, requests.exceptions.RequestException)]. *)
Variable is_RequestException : exn -> bool.

(** [str(e)] of an exception in an f-string. *)
Variable str : exn -> string.

(** [str(x)] of a parsed JSON value, or of [None], in an f-string. *)
Variable format : option Py.json -> string.

(** [json.dumps(x, indent=2)]. *)
Variable json_dumps : Py.json -> string.

Definition test_health_check : M bool :=
  print "Testing /health endpoint..." ;;;
  try_except_class is_RequestException
    (response <- lift (requests_get (BASE_URL ++ "/health")) ;;
     if (status_code response =? 200)%Z then
       body <- lift (json response) ;;
       print ("✓ Health check passed: " ++ format (Some body)) ;;;
       ret true
     else
       print ("✗ Health check failed with status "
              ++ str_int (status_code response)) ;;;
       ret false)
    (fun e =>
       print ("✗ Health check failed: " ++ str e) ;;;
       ret false).

Definition test_root_endpoint : M bool :=
  print (newline ++ "Testing / endpoint...") ;;;
  try_except_class is_RequestException
    (response <- lift (requests_get (BASE_URL ++ "/")) ;;
     if (status_code response =? 200)%Z then
       body <- lift (json response) ;;
       print ("✓ Root endpoint passed: " ++ format (Some body)) ;;;
       ret true
     else
       print ("✗ Root endpoint failed with status "
              ++ str_int (status_code response)) ;;;
       ret false)
    (fun e =>
       print ("✗ Root endpoint failed: " ++ str e) ;;;
       ret false).

Definition test_predict_endpoint : M bool :=
  print (newline ++ "Testing /predict endpoint...") ;;;
  try_except_class is_RequestException
    (response <- lift (requests_post (BASE_URL ++ "/predict") sample_data) ;;
     if (status_code response =? 200)%Z then
       result <- lift (json response) ;;
       print "✓ Predict endpoint passed!" ;;;
       print ("  Input data: " ++ json_dumps sample_data) ;;;
       print "  Results:" ;;;
       lr <- get result "logistic_regression" ;;
       print ("    - Logistic Regression: " ++ format lr) ;;;
       dt <- get result "decision_tree" ;;
       print ("    - Decision Tree: " ++ format dt) ;;;
       ret true
     else
       print ("✗ Predict endpoint failed with status "
              ++ str_int (status_code response)) ;;;
       print ("  Response: " ++ text response) ;;;
       ret false)
    (fun e =>
       print ("✗ Predict endpoint failed: " ++ str e) ;;;
       ret false).

(** The loop that prints one line per test. *)
Fixpoint print_results (results : list (string * bool)) : M unit :=
  match results with
  | [] => ret tt
  | (test_name, result) :: rest =>
      print (test_name ++ ": " ++ (if result then "✓ PASSED" else "✗ FAILED")) ;;;
      print_results rest
  end.

Definition main : M unit :=
  print (repeat_string "=" 60) ;;;
  print "FastAPI Backend Test Suite" ;;;
  print (repeat_string "=" 60) ;;;
  print (newline ++ "Waiting for server to be ready...") ;;;
  r1 <- test_health_check ;;
  r2 <- test_root_endpoint ;;
  r3 <- test_predict_endpoint ;;
  let results := [ ("Health Check", r1); ("Root Endpoint", r2);
                   ("Predict Endpoint", r3) ] in
  print (newline ++ repeat_string "=" 60) ;;;
  print "Test Summary" ;;;
  print (repeat_string "=" 60) ;;;
  let passed := count_passed results in
  let total := Z.of_nat (length results) in
  print_results results ;;;
  print (newline ++ "Total: " ++ str_int passed ++ "/" ++ str_int total
         ++ " tests passed") ;;;
  if (passed =? total)%Z then
    print (newline ++ "🎉 All tests passed! Backend is working correctly.")
  else
    print (newline ++ "⚠️  Some tests failed. Please check the server logs.").

End Client.
End TestBackend.

(** A network for running the script: a server that is down, and one that
    answers from the backend above with its three objects loaded. *)
Module DemoClient.

Definition is_RequestException (e : exn) : bool :=
  match e with
  | PyException cls _ => String.eqb cls "ConnectionError"
  | HTTPException _ _ => false
  end.

Definition refused : exn :=
  PyException "ConnectionError" "Connection refused".

Definition down_get (url : string) : result TestBackend.Response :=
  Raise refused.

Definition down_post (url : string) (body : json) : result TestBackend.Response :=
  Raise refused.

Definition page (m : M json) : result TestBackend.Response :=
  Ok {| TestBackend.status_code := 200;
        TestBackend.text := "";
        TestBackend.json := fst (fst (m Demo.loaded)) |}.

Definition up_get (url : string) : result TestBackend.Response :=
  if String.eqb url "http://127.0.0.1:8000/health" then page Main.health_check
  else if String.eqb url "http://127.0.0.1:8000/" then page Main.root
  else Ok {| TestBackend.status_code := 404;
             TestBackend.text := "Not Found";
             TestBackend.json := Ok (JDict [("detail", JStr "Not Found")]) |}.

Definition up_post (url : string) (body : json) : result TestBackend.Response :=
  page (Main.predict Demo.str Demo.example).

Definition format (x : option json) : string :=
  match x with
  | Some _ => "{...}"
  | None => "None"
  end.

Definition json_dumps (x : json) : string := "{...}".

End DemoClient.

(* ===================================================================== *)
(** ** Observations of a run, and the vocabulary of the properties         *)
(* ===================================================================== *)

Import ModelLoader Main.

Definition response_of {A} (x : result A * globals * list event) : result A :=
  fst (fst x).
Definition globals_of {A} (x : result A * globals * list event) : globals :=
  snd (fst x).
Definition trace_of {A} (x : result A * globals * list event) : list event :=
  snd x.

Definition is_call (r : receiver) (m : method) (e : event) : bool :=
  match e with
  | Call r' m' _ =>
      match r, r' with
      | the_scaler, the_scaler
      | the_logistic_model, the_logistic_model
      | the_decision_tree_model, the_decision_tree_model =>
          match m, m' with
          | m_transform, m_transform
          | m_predict, m_predict
          | m_predict_proba, m_predict_proba => true
          | _, _ => false
          end
      | _, _ => false
      end
  | _ => false
  end.

Definition is_load (e : event) : bool :=
  match e with JoblibLoad _ => true | _ => false end.

Definition is_inference (e : event) : bool :=
  match e with Call _ _ _ => true | _ => false end.

(** The four calls of a request that runs to the end, on the assembled array
    [x] and the scaler's answer [s]. *)
Definition full_trace (x s : ndarray) : list event :=
  [ Call the_scaler m_transform x;
    Call the_logistic_model m_predict s;
    Call the_logistic_model m_predict_proba s;
    Call the_decision_tree_model m_predict x ].

(** The dictionary returned for the logistic label [lp], class-1 probability
    [p] and tree label [dp]. *)
Definition response_body (d : StudentData) (lp : npscalar) (p : Q) (dp : npscalar) : json :=
  JDict
    [ ("logistic_regression",
       JDict [ ("prediction", JInt (int lp));
               ("risk_probability", JFloat (round2 p));
               ("explanation", JStr (explanation_text lp (explanation_parts d))) ]);
      ("decision_tree",
       JDict [ ("prediction", JInt (int dp));
               ("explanation", JStr (dt_explanation_text dp (dt_explanation_parts d))) ]) ].

(** All three globals hold an object. *)
Definition models_loaded (g : globals) (lm dt sc : object) : Prop :=
  logistic_model g = Some lm /\ decision_tree_model g = Some dt /\ scaler g = Some sc.

(** How a request that found the three objects went: which answers the
    objects gave, what the handler body produced and what it called. *)
Inductive body_run (lm dt sc : object) (d : StudentData) :
    result json -> list event -> Prop :=
| run_transform_raises e :
    transform sc (input_array d) = Raise e ->
    body_run lm dt sc d (Raise e) [Call the_scaler m_transform (input_array d)]
| run_stops s e n :
    transform sc (input_array d) = Ok s ->
    (2 <= n <= 4)%nat ->
    body_run lm dt sc d (Raise e) (firstn n (full_trace (input_array d) s))
| run_returns s preds lp probas row p dpreds dp :
    transform sc (input_array d) = Ok s ->
    Py.predict lm s = Ok preds -> nth_error preds 0 = Some lp ->
    predict_proba lm s = Ok probas -> nth_error probas 0 = Some row ->
    nth_error row 1 = Some p ->
    Py.predict dt (input_array d) = Ok dpreds -> nth_error dpreds 0 = Some dp ->
    body_run lm dt sc d (Ok (response_body d lp p dp))
             (full_trace (input_array d) s).

(** What the [except] clause makes of the body's outcome. *)
Definition handled (str : exn -> string) (r : result json) : result json :=
  match r with
  | Ok j => Ok j
  | Raise e => Raise (prediction_failed str e)
  end.

(** What the framework makes of the handler's outcome. *)
Definition answer (r : result json) : http_response :=
  match r with
  | Ok j => Http200 j
  | Raise (HTTPException status_code detail) => HttpError status_code detail
  | Raise (PyException _ _) => InternalServerError
  end.

(** The static bounds, field by field. *)
Definition within_bounds (d : StudentData) : Prop :=
  (0 <= attendance d <= 100)%Q
  /\ (0 <= study_hours d)%Q
  /\ (0 <= assignments_completed d)%Z
  /\ (0 <= quiz_score d <= 100)%Q
  /\ (0 <= midterm_score d <= 100)%Q
  /\ (internet_access d = 0 \/ internet_access d = 1)%Z
  /\ (0 <= past_failures d)%Z.

(** The data flow "input, scaled copy, two model calls" read literally: one
    scaling, and every classifier call made on the scaler's answer. *)
Definition both_classifiers_on_scaled_input
    (str : exn -> string) (body : StudentData) (g : globals) : Prop :=
  forall sc, scaler g = Some sc ->
    length (filter (is_call the_scaler m_transform)
                   (trace_of (post_predict str body g))) = 1%nat
    /\ forall r m a,
         In (Call r m a) (trace_of (post_predict str body g)) ->
         r <> the_scaler ->
         transform sc (input_array body) = Ok a.

(** What a load that returns has done. *)
Definition loading_trace (dirname_file : string) : list event :=
  [ JoblibLoad (logistic_model_path dirname_file);
    JoblibLoad (decision_tree_model_path dirname_file);
    JoblibLoad (scaler_path dirname_file);
    Print "All models loaded successfully!" ].

(** [l1] is [l2] with some elements left out, the order kept. *)
Inductive subseq {A : Type} : list A -> list A -> Prop :=
| subseq_nil : subseq [] []
| subseq_skip x l1 l2 : subseq l1 l2 -> subseq l1 (x :: l2)
| subseq_keep x l1 l2 : subseq l1 l2 -> subseq (x :: l1) (x :: l2).

(** The fragments selected by the four threshold tests. *)
Definition fragments (m q s a : bool) : list string :=
  (if m then ["low midterm score"] else [])
  ++ (if q then ["low quiz score"] else [])
  ++ (if s then ["low study hours"] else [])
  ++ (if a then ["low attendance"] else []).

(** Fragments in a row: commas between them, [and] before the last of two
    or more. *)
Fixpoint and_join (l : list string) : string :=
  match l with
  | [] => ""
  | [x] => x
  | [x; y] => x ++ ", and " ++ y
  | x :: rest => x ++ ", " ++ and_join rest
  end.

(** What follows the risk phrase in the logistic-regression sentence. *)
Definition reason (parts : list string) : string :=
  match parts with
  | [] => " based on overall academic performance indicators."
  | _ => " because of " ++ and_join parts ++ "."
  end.

Definition past_failures_fragment (d : StudentData) : string :=
  if (0 <? past_failures d)%Z
  then str_int (past_failures d) ++ " past failure(s)"
  else "no past failures".

Definition internet_access_fragment (d : StudentData) : string :=
  if (internet_access d =? 1)%Z
  then "internet access available"
  else "no internet access".

(** The explanation strings of a response body. *)
Definition explanation_of (model : string) (j : json) : option json :=
  match lookup model j with
  | Some sub => lookup "explanation" sub
  | None => None
  end.

(** The value under [key] in the sub-dictionary [model] of a response. *)
Definition field_of (model key : string) (j : json) : option json :=
  match lookup model j with
  | Some sub => lookup key sub
  | None => None
  end.

(** What the client of [POST /predict] receives for [body] when the globals
    are [g]. *)
Definition answer_to (str : exn -> string) (g : globals) (body : StudentData)
    : http_response :=
  match response_of (post_predict str body g) with
  | Ok r => r
  | Raise _ => InternalServerError
  end.

(** The last character of a string. *)
Fixpoint last_ascii (s : string) : option ascii :=
  match s with
  | EmptyString => None
  | String c EmptyString => Some c
  | String _ rest => last_ascii rest
  end.

(* ===================================================================== *)
(** ** Basic facts                                                        *)
(* ===================================================================== *)

Lemma Qltb_lt (x y : Q) : Qltb x y = true <-> (x < y)%Q.
Proof.
  unfold Qltb. rewrite negb_true_iff. split; intro H.
  - apply Qnot_le_lt. intro L. apply Qle_bool_iff in L. congruence.
  - destruct (Qle_bool y x) eqn:E; [|reflexivity].
    apply Qle_bool_iff in E. exfalso. exact (Qlt_not_le _ _ H E).
Qed.

Ltac run_monad :=
  cbv [predict_body Main.predict post_predict try_except bind ret raise emit lift
       call subscript get_logistic_model get_decision_tree_model get_scaler
       response_of globals_of trace_of fst snd app].

Section Runs.

Variable str : exn -> string.

(** The handler body, case by case, when the three objects are there. *)
Lemma predict_body_loaded d g lm dt sc :
  models_loaded g lm dt sc ->
  exists r t, predict_body d g = (r, g, t) /\ body_run lm dt sc d r t.
Proof.
  intros (Hl & Hd & Hs). run_monad. rewrite Hl, Hd, Hs.
  destruct (transform sc (input_array d)) as [s|e] eqn:Et.
  2:{ eexists _, _. split; [reflexivity|]. now apply run_transform_raises. }
  destruct (Py.predict lm s) as [preds|e] eqn:Ep.
  2:{ eexists _, _. split; [reflexivity|].
      apply (run_stops lm dt sc d s e 2 Et). lia. }
  destruct (nth_error preds 0) as [lp|] eqn:Elp.
  2:{ eexists _, _. split; [reflexivity|].
      apply (run_stops lm dt sc d s _ 2 Et). lia. }
  destruct (predict_proba lm s) as [probas|e] eqn:Epp.
  2:{ eexists _, _. split; [reflexivity|].
      apply (run_stops lm dt sc d s e 3 Et). lia. }
  destruct (nth_error probas 0) as [row|] eqn:Erow.
  2:{ eexists _, _. split; [reflexivity|].
      apply (run_stops lm dt sc d s _ 3 Et). lia. }
  destruct (nth_error row 1) as [p|] eqn:Erp.
  2:{ eexists _, _. split; [reflexivity|].
      apply (run_stops lm dt sc d s _ 3 Et). lia. }
  destruct (Py.predict dt (input_array d)) as [dpreds|e] eqn:Ed.
  2:{ eexists _, _. split; [reflexivity|].
      apply (run_stops lm dt sc d s e 4 Et). lia. }
  destruct (nth_error dpreds 0) as [dp|] eqn:Edp.
  2:{ eexists _, _. split; [reflexivity|].
      apply (run_stops lm dt sc d s _ 4 Et). lia. }
  eexists _, _. split; [reflexivity|].
  eapply run_returns; eassumption.
Qed.

(** The handler body when one of the globals is still [None]. *)
Lemma predict_body_not_loaded d g :
  logistic_model g = None \/ decision_tree_model g = None \/ scaler g = None ->
  predict_body d g = (Raise models_not_loaded, g, []).
Proof.
  intros H. run_monad.
  destruct (logistic_model g), (decision_tree_model g), (scaler g);
    try reflexivity.
  destruct H as [H | [H | H]]; discriminate H.
Qed.

(** The handler body never writes the globals. *)
Lemma predict_body_frame d g : globals_of (predict_body d g) = g.
Proof.
  destruct (logistic_model g) as [lm|] eqn:Hl;
    [destruct (decision_tree_model g) as [dt|] eqn:Hd;
     [destruct (scaler g) as [sc|] eqn:Hs|]|].
  - destruct (predict_body_loaded d g lm dt sc) as (r & t & E & _).
    + now repeat split.
    + now rewrite E.
  - rewrite predict_body_not_loaded; auto.
  - rewrite predict_body_not_loaded; auto.
  - rewrite predict_body_not_loaded; auto.
Qed.

Lemma predict_run d g :
  Main.predict str d g =
  (handled str (response_of (predict_body d g)), g, trace_of (predict_body d g)).
Proof.
  pose proof (predict_body_frame d g) as F.
  unfold Main.predict, try_except, raise, response_of, globals_of, trace_of in *.
  destruct (predict_body d g) as [[[j|e] g1] t]; simpl in *; subst g1.
  - reflexivity.
  - now rewrite app_nil_r.
Qed.

Lemma post_predict_valid d g :
  validate d = true ->
  post_predict str d g =
  (Ok (answer (handled str (response_of (predict_body d g)))), g,
   trace_of (predict_body d g)).
Proof.
  intros V. unfold post_predict. rewrite V, predict_run.
  destruct (response_of (predict_body d g)) as [j|e]; reflexivity.
Qed.

Lemma post_predict_invalid d g :
  validate d = false -> post_predict str d g = (Ok Http422, g, []).
Proof. intros V. unfold post_predict. now rewrite V. Qed.

Lemma answer_handled_not_422 r : answer (handled str r) <> Http422.
Proof. destruct r as [j|e]; simpl; discriminate. Qed.

Lemma post_predict_frame d g : globals_of (post_predict str d g) = g.
Proof.
  destruct (validate d) eqn:V.
  - now rewrite post_predict_valid.
  - now rewrite post_predict_invalid.
Qed.

Lemma body_run_inference lm dt sc d r t :
  body_run lm dt sc d r t -> forallb is_inference t = true.
Proof.
  intros [e _ | s e n _ Hn | ]; try reflexivity.
  destruct n as [|[|[|[|[|n]]]]]; try lia; reflexivity.
Qed.

Lemma predict_body_inference d g :
  forallb is_inference (trace_of (predict_body d g)) = true.
Proof.
  destruct (logistic_model g) as [lm|] eqn:Hl;
    [destruct (decision_tree_model g) as [dt|] eqn:Hd;
     [destruct (scaler g) as [sc|] eqn:Hs|]|];
    try (rewrite predict_body_not_loaded; auto; fail).
  destruct (predict_body_loaded d g lm dt sc) as (r & t & E & R).
  - now repeat split.
  - rewrite E. exact (body_run_inference _ _ _ _ _ _ R).
Qed.

Lemma post_predict_inference d g :
  forallb is_inference (trace_of (post_predict str d g)) = true.
Proof.
  destruct (validate d) eqn:V.
  - rewrite post_predict_valid by assumption. apply predict_body_inference.
  - now rewrite post_predict_invalid.
Qed.

End Runs.

(* ===================================================================== *)
(** ** Validation                                                         *)
(* ===================================================================== *)

Lemma validate_within_bounds d : validate d = true <-> within_bounds d.
Proof.
  unfold validate, within_bounds, check; simpl.
  rewrite !andb_true_r, !andb_true_iff, !Qle_bool_iff, !Z.leb_le.
  intuition lia.
Qed.

(** C2.  The endpoint answers something other than 422 exactly when every
    one of the seven fields is within its own static bound; a body that
    breaks a bound is answered 422 with no call to the scaler or to a
    model, and the globals untouched. *)
Theorem post_predict_accepts_iff_within_bounds
    (str : exn -> string) (body : StudentData) (g : globals) :
  (response_of (post_predict str body g) <> Ok Http422 <-> within_bounds body)
  /\ (~ within_bounds body ->
      post_predict str body g = (Ok Http422, g, [])).
Proof.
  rewrite <- validate_within_bounds. destruct (validate body) eqn:V.
  - rewrite post_predict_valid by assumption. split.
    + split; [reflexivity|]. intros _ H. injection H as H.
      exact (answer_handled_not_422 str _ H).
    + intros H. now elim H.
  - rewrite post_predict_invalid by assumption. split.
    + split; [intros H; now elim H | discriminate].
    + reflexivity.
Qed.

Lemma post_predict_accepts_iff_within_bounds_witness :
  post_predict Demo.str Demo.out_of_range Demo.loaded
  = (Ok Http422, Demo.loaded, [])
  /\ response_of (post_predict Demo.str Demo.example Demo.loaded) <> Ok Http422.
Proof.
  split.
  - apply (post_predict_accepts_iff_within_bounds Demo.str Demo.out_of_range
             Demo.loaded).
    intros ((_ & H) & _). apply Qle_bool_iff in H. discriminate H.
  - apply (post_predict_accepts_iff_within_bounds Demo.str Demo.example
             Demo.loaded).
    apply validate_within_bounds. reflexivity.
Defined.

(* ===================================================================== *)
(** ** Which object is called on which array                              *)
(* ===================================================================== *)

Lemma body_run_calls lm dt sc d r t :
  body_run lm dt sc d r t ->
  (exists rest, t = Call the_scaler m_transform (input_array d) :: rest)
  /\ length (filter (is_call the_scaler m_transform) t) = 1%nat
  /\ (forall m a, In (Call the_scaler m a) t ->
        m = m_transform /\ a = input_array d)
  /\ (forall m a, In (Call the_logistic_model m a) t ->
        m <> m_transform /\ transform sc (input_array d) = Ok a)
  /\ (forall m a, In (Call the_decision_tree_model m a) t ->
        m = m_predict /\ a = input_array d)
  /\ (forall j, r = Ok j ->
        exists s, transform sc (input_array d) = Ok s
                  /\ t = full_trace (input_array d) s).
Proof.
  intros R.
  assert (K : (exists e, transform sc (input_array d) = Raise e
                         /\ r = Raise e
                         /\ t = [Call the_scaler m_transform (input_array d)])
              \/ (exists s n, transform sc (input_array d) = Ok s
                              /\ (2 <= n <= 4)%nat
                              /\ (n <> 4%nat -> exists e, r = Raise e)
                              /\ t = firstn n (full_trace (input_array d) s))).
  { destruct R as [e Et | s e n Et Hn | s ? ? ? ? ? ? ? Et].
    - left. eauto.
    - right. exists s, n. split; [exact Et|]. split; [exact Hn|].
      split; [eauto | reflexivity].
    - right. exists s, 4%nat. split; [exact Et|]. split; [lia|].
      split; [intros N; now elim N | reflexivity]. }
  clear R.
  assert (Hin : forall (P : receiver -> method -> ndarray -> Prop) l,
            Forall (fun ev => match ev with Call r m a => P r m a | _ => True end) l ->
            forall r m a, In (Call r m a) l -> P r m a).
  { intros P l F r0 m a I. rewrite Forall_forall in F. exact (F _ I). }
  destruct K as [(e & Et & -> & ->) | (s & n & Et & Hn & Hr & ->)].
  - split; [eexists; reflexivity|]. split; [reflexivity|].
    split; [|split; [|split]].
    + intros m a [I | []]. inversion I. now split.
    + intros m a [I | []]. inversion I.
    + intros m a [I | []]. inversion I.
    + discriminate.
  - assert (Hn' : n = 2%nat \/ n = 3%nat \/ n = 4%nat) by lia.
    split; [destruct Hn' as [-> | [-> | ->]]; eexists; reflexivity|].
    split; [destruct Hn' as [-> | [-> | ->]]; reflexivity|].
    split; [|split; [|split]].
    + intros m a I.
      refine (Hin (fun r m a => r = the_scaler -> m = m_transform /\ a = input_array d)
                 (firstn n (full_trace (input_array d) s)) _ the_scaler m a I eq_refl).
      destruct Hn' as [-> | [-> | ->]]; simpl;
        repeat constructor; intros; try discriminate; auto.
    + intros m a I.
      refine (Hin (fun r m a => r = the_logistic_model ->
                                  m <> m_transform /\ transform sc (input_array d) = Ok a)
                 (firstn n (full_trace (input_array d) s)) _ the_logistic_model m a I eq_refl).
      destruct Hn' as [-> | [-> | ->]]; simpl;
        repeat constructor; intros; try discriminate; auto.
    + intros m a I.
      refine (Hin (fun r m a => r = the_decision_tree_model ->
                                  m = m_predict /\ a = input_array d)
                 (firstn n (full_trace (input_array d) s)) _ the_decision_tree_model m a I eq_refl).
      destruct Hn' as [-> | [-> | ->]]; simpl;
        repeat constructor; intros; try discriminate; auto.
    + intros j ->. destruct Hn' as [-> | [-> | ->]].
      * destruct Hr as [e He]; [lia | discriminate He].
      * destruct Hr as [e He]; [lia | discriminate He].
      * exists s. now split.
Qed.

(** C1, as worded, fails: on the documentation's example body the tree is
    called on the assembled array itself, which is not the scaler's answer. *)
Lemma both_classifiers_on_scaled_input_counterexample :
  validate Demo.example = true
  /\ ~ both_classifiers_on_scaled_input Demo.str Demo.example Demo.loaded.
Proof.
  split; [reflexivity|]. intros H.
  destruct (H Demo.the_scaler_object eq_refl) as [_ K].
  specialize (K the_decision_tree_model m_predict (input_array Demo.example)).
  assert (E : transform Demo.the_scaler_object (input_array Demo.example)
              = Ok (input_array Demo.example)).
  { apply K; [|discriminate]. vm_compute. tauto. }
  vm_compute in E. discriminate E.
Qed.

(** C1, amended.  For a valid body and three loaded objects, the scaler's
    [transform] is called exactly once, first, on the assembled array; every
    call on the logistic model ([predict], [predict_proba]) is made on the
    scaler's answer; the decision tree's [predict] is made on the assembled,
    unscaled array; a request answered 200 made exactly these four calls. *)
Theorem scaling_once_logistic_scaled_tree_raw
    (str : exn -> string) (body : StudentData) (g : globals) (lm dt sc : object) :
  validate body = true ->
  models_loaded g lm dt sc ->
  let t := trace_of (post_predict str body g) in
  (exists rest, t = Call the_scaler m_transform (input_array body) :: rest)
  /\ length (filter (is_call the_scaler m_transform) t) = 1%nat
  /\ (forall m a, In (Call the_logistic_model m a) t ->
        transform sc (input_array body) = Ok a)
  /\ (forall m a, In (Call the_decision_tree_model m a) t ->
        m = m_predict /\ a = input_array body)
  /\ (forall j, response_of (post_predict str body g) = Ok (Http200 j) ->
        exists s, transform sc (input_array body) = Ok s
                  /\ t = full_trace (input_array body) s).
Proof.
  intros V L t. subst t. rewrite post_predict_valid by assumption.
  destruct (predict_body_loaded body g lm dt sc L) as (r & t & E & R).
  rewrite E. unfold trace_of, response_of; simpl.
  destruct (body_run_calls _ _ _ _ _ _ R) as (H1 & H2 & _ & H4 & H5 & H6).
  repeat split; try assumption.
  - intros m a I. exact (proj2 (H4 m a I)).
  - exact (proj1 (H5 m a H)).
  - exact (proj2 (H5 m a H)).
  - intros j Hj. destruct r as [j'|e].
    + eauto.
    + simpl in Hj. discriminate Hj.
Qed.

Lemma scaling_once_logistic_scaled_tree_raw_witness :
  validate Demo.example = true
  /\ models_loaded Demo.loaded Demo.the_logistic_object Demo.tree_classifier
                   Demo.the_scaler_object
  /\ length (filter (is_call the_scaler m_transform)
                    (trace_of (post_predict Demo.str Demo.example Demo.loaded)))
     = 1%nat.
Proof.
  split; [reflexivity|]. split; [repeat split|].
  apply (scaling_once_logistic_scaled_tree_raw Demo.str Demo.example Demo.loaded
           Demo.the_logistic_object Demo.tree_classifier Demo.the_scaler_object).
  - reflexivity.
  - repeat split.
Defined.


(** The assembled array of a body within bounds, entry by entry. *)
Lemma input_array_valid (body : StudentData) :
  validate body = true ->
  input_array body
  = [[ attendance body; study_hours body;
       (if ((assignments_completed body <? 2 ^ 64)
            && (past_failures body <? 2 ^ 64))%Z
        then float64_of_Z (assignments_completed body)
        else inject_Z (assignments_completed body));
       quiz_score body; midterm_score body;
       inject_Z (internet_access body);
       (if ((assignments_completed body <? 2 ^ 64)
            && (past_failures body <? 2 ^ 64))%Z
        then float64_of_Z (past_failures body)
        else inject_Z (past_failures body)) ]].
Proof.
  intros V. apply validate_within_bounds in V.
  destruct V as (_ & _ & C0 & _ & _ & Hi & P0).
  unfold input_array, reshape_1, np_array, input_data.
  cbn [forallb fits_c_integer].
  assert (A : (- 2 ^ 63 <=? assignments_completed body)%Z = true)
    by (apply Z.leb_le; lia).
  assert (P : (- 2 ^ 63 <=? past_failures body)%Z = true)
    by (apply Z.leb_le; lia).
  assert (I : ((- 2 ^ 63 <=? internet_access body)
               && (internet_access body <? 2 ^ 64))%Z = true).
  { destruct Hi as [-> | ->]; reflexivity. }
  assert (F : float64_of_Z (internet_access body)
              = inject_Z (internet_access body)).
  { destruct Hi as [-> | ->]; reflexivity. }
  rewrite A, P, I. cbn [andb].
  rewrite andb_true_r.
  destruct ((assignments_completed body <? 2 ^ 64)
            && (past_failures body <? 2 ^ 64))%Z;
    cbn [map to_float as_object]; [now rewrite F | reflexivity].
Qed.



(* ===================================================================== *)
(** ** The response                                                       *)
(* ===================================================================== *)

Lemma round_half_even_near (q : Q) :
  (Qabs (q - inject_Z (round_half_even q)) <= 1 # 2)%Q.
Proof.
  unfold round_half_even.
  pose proof (Qfloor_le q) as Hlo. pose proof (Qlt_floor q) as Hhi.
  rewrite inject_Z_plus in Hhi. change (inject_Z 1) with 1%Q in Hhi.
  set (f := Qfloor q) in *.
  apply Qabs_Qle_condition.
  destruct (Qcompare_spec (q - inject_Z f) (1 # 2)) as [E | L | G].
  - destruct (Z.even f); [|rewrite inject_Z_plus; change (inject_Z 1) with 1%Q];
      lra.
  - lra.
  - rewrite inject_Z_plus. change (inject_Z 1) with 1%Q. lra.
Qed.

(** [round2] yields a number of hundredths, at most half a hundredth away. *)
Lemma round2_near (x : Q) :
  (exists k : Z, round2 x = (k # 100)%Q) /\ (Qabs (x - round2 x) <= 1 # 200)%Q.
Proof.
  split; [eexists; reflexivity|].
  unfold round2. pose proof (round_half_even_near (x * 100)) as H.
  apply Qabs_Qle_condition in H. apply Qabs_Qle_condition.
  rewrite (Qmake_Qdiv (round_half_even (x * 100)) 100).
  set (k := inject_Z (round_half_even (x * 100))) in *.
  change (inject_Z (Z.pos 100)) with 100%Q.
  assert (E : (k / 100 == k * (1 # 100))%Q) by (unfold Qdiv; reflexivity).
  rewrite E. lra.
Qed.

(** A request answered 200 was valid, found the three objects, and every
    object answered. *)
Lemma post_predict_200_inv str body g j :
  response_of (post_predict str body g) = Ok (Http200 j) ->
  validate body = true
  /\ exists lm dt sc,
       models_loaded g lm dt sc
       /\ body_run lm dt sc body (Ok j) (trace_of (post_predict str body g)).
Proof.
  intros H. destruct (validate body) eqn:V.
  2:{ rewrite post_predict_invalid in H by assumption. discriminate H. }
  split; [reflexivity|].
  rewrite post_predict_valid in * by assumption.
  unfold response_of at 1 in H. unfold trace_of at 1. simpl in *.
  destruct (logistic_model g) as [lm|] eqn:Hl;
    [destruct (decision_tree_model g) as [dt|] eqn:Hd;
     [destruct (scaler g) as [sc|] eqn:Hs|]|];
    try (rewrite predict_body_not_loaded in H by auto; discriminate H).
  exists lm, dt, sc. split; [now repeat split|].
  destruct (predict_body_loaded body g lm dt sc) as (r & t & E & R);
    [now repeat split|].
  rewrite E in *. unfold response_of, trace_of in *. simpl in *.
  destruct r as [j'|e].
  - simpl in H. injection H as ->. exact R.
  - simpl in H. discriminate H.
Qed.

(** C5.  The body of a 200 answer is a dictionary with exactly the keys
    [logistic_regression] and [decision_tree]; the first holds exactly
    [prediction], [risk_probability] and [explanation], the second exactly
    [prediction] and [explanation]; each [prediction] is [int] of the first
    label its model returned, and [risk_probability] is the second entry of
    the first row of [predict_proba], rounded to hundredths. *)
Theorem response_shape
    (str : exn -> string) (body : StudentData) (g : globals) (j : json) :
  response_of (post_predict str body g) = Ok (Http200 j) ->
  exists lm dt sc s preds lp probas row p dpreds dp e1 e2,
    models_loaded g lm dt sc
    /\ transform sc (input_array body) = Ok s
    /\ Py.predict lm s = Ok preds /\ nth_error preds 0 = Some lp
    /\ predict_proba lm s = Ok probas /\ nth_error probas 0 = Some row
    /\ nth_error row 1 = Some p
    /\ Py.predict dt (input_array body) = Ok dpreds
    /\ nth_error dpreds 0 = Some dp
    /\ j = JDict
             [ ("logistic_regression",
                JDict [ ("prediction", JInt (int lp));
                        ("risk_probability", JFloat (round2 p));
                        ("explanation", JStr e1) ]);
               ("decision_tree",
                JDict [ ("prediction", JInt (int dp));
                        ("explanation", JStr e2) ]) ]
    /\ keys j = ["logistic_regression"; "decision_tree"]
    /\ option_map keys (lookup "logistic_regression" j)
       = Some ["prediction"; "risk_probability"; "explanation"]
    /\ option_map keys (lookup "decision_tree" j)
       = Some ["prediction"; "explanation"]
    /\ (exists k : Z, round2 p = (k # 100)%Q)
    /\ (Qabs (p - round2 p) <= 1 # 200)%Q.
Proof.
  intros H. destruct (post_predict_200_inv str body g j H)
    as (_ & lm & dt & sc & L & R).
  inversion R as [ | | s preds lp probas row p dpreds dp Et Ep Elp Epp Erow Erp Ed Edp Ej Etr].
  exists lm, dt, sc, s, preds, lp, probas, row, p, dpreds, dp.
  eexists _, _. repeat (split; [eassumption || reflexivity|]).
  apply round2_near.
Qed.

Lemma response_shape_witness :
  exists j,
    response_of (post_predict Demo.str Demo.struggling Demo.loaded) = Ok (Http200 j)
    /\ keys j = ["logistic_regression"; "decision_tree"]
    /\ lookup "logistic_regression" j
       = Some (JDict
                 [ ("prediction", JInt 1);
                   ("risk_probability", JFloat 0.96);
                   ("explanation",
                    JStr "The model predicted the student is at risk because of low midterm score, low quiz score, low study hours, and low attendance.") ]).
Proof.
  eexists. split; [vm_compute; reflexivity|].
  split; [|reflexivity].
  destruct (response_shape Demo.str Demo.struggling Demo.loaded _
              ltac:(vm_compute; reflexivity))
    as (lm & dt & sc & s & preds & lp & probas & row & p & dpreds & dp & e1 & e2 & H).
  exact (proj1 (proj2 (proj2 (proj2 (proj2 (proj2 (proj2 (proj2 (proj2 (proj2 (proj2 H))))))))))).
Defined.

(* ===================================================================== *)
(** ** Determinism and frame                                              *)
(* ===================================================================== *)

(** C6.  On equal bodies, two invocations against the same three objects
    give the same response, whether both start from the same globals or
    the second runs after the first. *)
Theorem prediction_deterministic
    (str : exn -> string) (g : globals) (body1 body2 : StudentData) :
  body1 = body2 ->
  response_of (post_predict str body1 g) = response_of (post_predict str body2 g)
  /\ response_of (post_predict str body2 (globals_of (post_predict str body1 g)))
     = response_of (post_predict str body1 g).
Proof.
  intros <-. split; [reflexivity|]. now rewrite post_predict_frame.
Qed.

Lemma prediction_deterministic_witness :
  response_of (post_predict Demo.str Demo.example
                 (globals_of (post_predict Demo.str Demo.example Demo.loaded)))
  = response_of (post_predict Demo.str Demo.example Demo.loaded).
Proof.
  apply (prediction_deterministic Demo.str Demo.loaded Demo.example Demo.example).
  reflexivity.
Defined.

Lemma post_predict_tree_arg str body g m a :
  In (Call the_decision_tree_model m a) (trace_of (post_predict str body g)) ->
  a = input_array body.
Proof.
  destruct (validate body) eqn:V.
  2:{ rewrite post_predict_invalid by assumption. intros []. }
  rewrite post_predict_valid by assumption. unfold trace_of at 1; simpl.
  destruct (logistic_model g) as [lm|] eqn:Hl;
    [destruct (decision_tree_model g) as [dt|] eqn:Hd;
     [destruct (scaler g) as [sc|] eqn:Hs|]|];
    try (rewrite predict_body_not_loaded by auto; intros []).
  destruct (predict_body_loaded body g lm dt sc) as (r & t & E & R);
    [now repeat split|].
  rewrite E. unfold trace_of; simpl. intros I.
  destruct (body_run_calls _ _ _ _ _ _ R) as (_ & _ & _ & _ & H5 & _).
  exact (proj2 (H5 m a I)).
Qed.

(** C7.  A request leaves the globals as it found them, so the three
    objects they refer to are the same afterwards; its only effects are calls
    into the three objects (no load, no output, nothing stored); and the
    array assembled from the record reaches the decision tree as assembled,
    after the scaling. *)
Theorem predict_mutates_nothing
    (str : exn -> string) (body : StudentData) (g : globals) :
  globals_of (post_predict str body g) = g
  /\ globals_of (Main.predict str body g) = g
  /\ forallb is_inference (trace_of (post_predict str body g)) = true
  /\ (forall m a,
        In (Call the_decision_tree_model m a) (trace_of (post_predict str body g)) ->
        a = input_array body).
Proof.
  split; [apply post_predict_frame|].
  split; [now rewrite predict_run|].
  split; [apply post_predict_inference|].
  intros m a. apply post_predict_tree_arg.
Qed.

Lemma predict_mutates_nothing_witness :
  globals_of (post_predict Demo.str Demo.struggling Demo.loaded) = Demo.loaded.
Proof.
  apply (predict_mutates_nothing Demo.str Demo.struggling Demo.loaded).
Defined.

(* ===================================================================== *)
(** ** Failures                                                           *)
(* ===================================================================== *)

Lemma prefix_append (p s : string) : String.prefix p (p ++ s) = true.
Proof.
  induction p as [|c p IH]; simpl; [now destruct s|].
  destruct (ascii_dec c c) as [_|N]; [exact IH | now elim N].
Qed.

(** C9.  Whatever is raised inside the handler leaves it as an
    [HTTPException] of status 500 whose detail starts with
    [Prediction failed: ]; with a global still [None] the handler raises
    before any call to the scaler or a model, and the client of a valid
    request receives the wrapped detail, which is not the detail of the
    inner "Models not loaded" exception. *)
Theorem failures_become_prediction_failed
    (str : exn -> string) (body : StudentData) (g : globals) :
  (forall e, response_of (Main.predict str body g) = Raise e ->
     exists cause,
       e = HTTPException 500 ("Prediction failed: " ++ str cause)
       /\ String.prefix "Prediction failed: " ("Prediction failed: " ++ str cause) = true
       /\ (validate body = true ->
           response_of (post_predict str body g)
           = Ok (HttpError 500 ("Prediction failed: " ++ str cause))))
  /\ (logistic_model g = None \/ decision_tree_model g = None \/ scaler g = None ->
      Main.predict str body g
      = (Raise (HTTPException 500 ("Prediction failed: " ++ str models_not_loaded)),
         g, [])
      /\ (validate body = true ->
          post_predict str body g
          = (Ok (HttpError 500 ("Prediction failed: " ++ str models_not_loaded)),
             g, []))
      /\ ("Prediction failed: " ++ str models_not_loaded)%string
         <> "Models not loaded. Please restart the application.").
Proof.
  split.
  - intros e H. rewrite predict_run in H. unfold response_of at 1 in H; simpl in H.
    destruct (response_of (predict_body body g)) as [j|cause] eqn:E; [discriminate H|].
    simpl in H. injection H as <-. exists cause.
    split; [reflexivity|]. split; [apply prefix_append|].
    intros V. rewrite post_predict_valid by assumption. now rewrite E.
  - intros N. split; [|split].
    + now rewrite predict_run, predict_body_not_loaded.
    + intros V. rewrite post_predict_valid by assumption.
      now rewrite predict_body_not_loaded.
    + discriminate.
Qed.

Lemma failures_become_prediction_failed_witness :
  post_predict Demo.str Demo.example ModelLoader.initial
  = (Ok (HttpError 500
           "Prediction failed: 500: Models not loaded. Please restart the application."),
     ModelLoader.initial, []).
Proof.
  apply (failures_become_prediction_failed Demo.str Demo.example ModelLoader.initial).
  - left. reflexivity.
  - reflexivity.
Defined.

(* ===================================================================== *)
(** ** Startup                                                            *)
(* ===================================================================== *)

Section Startup.

Variable str : exn -> string.
Variable dirname_file : string.
Variable joblib_load : string -> result object.

Lemma load_models_ok g lm dt sc :
  joblib_load (logistic_model_path dirname_file) = Ok lm ->
  joblib_load (decision_tree_model_path dirname_file) = Ok dt ->
  joblib_load (scaler_path dirname_file) = Ok sc ->
  load_models dirname_file joblib_load g
  = (Ok tt,
     {| logistic_model := Some lm; decision_tree_model := Some dt;
        scaler := Some sc |},
     loading_trace dirname_file).
Proof.
  intros E1 E2 E3.
  cbv [load_models load bind emit lift set_logistic_model
       set_decision_tree_model set_scaler app].
  rewrite E1, E2, E3. reflexivity.
Qed.

Lemma load_models_ok_inv g :
  response_of (load_models dirname_file joblib_load g) = Ok tt ->
  exists lm dt sc,
    joblib_load (logistic_model_path dirname_file) = Ok lm
    /\ joblib_load (decision_tree_model_path dirname_file) = Ok dt
    /\ joblib_load (scaler_path dirname_file) = Ok sc.
Proof.
  cbv [load_models load bind emit lift set_logistic_model
       set_decision_tree_model set_scaler app response_of fst].
  destruct (joblib_load (logistic_model_path dirname_file)) as [lm|e]; [|discriminate].
  destruct (joblib_load (decision_tree_model_path dirname_file)) as [dt|e]; [|discriminate].
  destruct (joblib_load (scaler_path dirname_file)) as [sc|e]; [|discriminate].
  intros _. now exists lm, dt, sc.
Qed.

Lemma post_predict_total d g :
  exists r, post_predict str d g = (Ok r, g, trace_of (post_predict str d g)).
Proof.
  destruct (validate d) eqn:V.
  - rewrite post_predict_valid by assumption. eexists. reflexivity.
  - rewrite post_predict_invalid by assumption. eexists. reflexivity.
Qed.

(** Serving requests never raises, never writes the globals and only calls
    into the three objects. *)
Lemma serve_run requests g :
  exists rs t,
    serve str requests g = (Ok rs, g, t)
    /\ length rs = length requests
    /\ forallb is_inference t = true.
Proof.
  induction requests as [|d rest IH]; simpl.
  - exists [], []. now repeat split.
  - destruct (post_predict_total d g) as (r & E).
    destruct IH as (rs & t & Es & Len & Inf).
    unfold bind. rewrite E, Es. simpl.
    exists (r :: rs), (trace_of (post_predict str d g) ++ t ++ []).
    split; [reflexivity|]. split; [simpl; now rewrite Len|].
    rewrite !forallb_app, post_predict_inference, Inf. reflexivity.
Qed.

Lemma filter_load_inference t :
  forallb is_inference t = true -> filter is_load t = [].
Proof.
  induction t as [|e t IH]; simpl; [reflexivity|].
  rewrite andb_true_iff. intros [He Ht]. destruct e; try discriminate He.
  simpl. now apply IH.
Qed.

(** C8.  A load that returns has deserialized exactly three files, the
    logistic model, the decision tree and the scaler, in that order; the
    globals then hold the three objects and each getter returns its own
    (none returns [None]).  Over the life of the process the loader runs
    once, before any request: whatever the requests served, the loads of the
    whole run are these three. *)
Theorem load_models_loads_three_once (g : globals) :
  response_of (load_models dirname_file joblib_load g) = Ok tt ->
  exists lm dt sc,
    joblib_load (logistic_model_path dirname_file) = Ok lm
    /\ joblib_load (decision_tree_model_path dirname_file) = Ok dt
    /\ joblib_load (scaler_path dirname_file) = Ok sc
    /\ trace_of (load_models dirname_file joblib_load g) = loading_trace dirname_file
    /\ globals_of (load_models dirname_file joblib_load g)
       = {| logistic_model := Some lm; decision_tree_model := Some dt;
            scaler := Some sc |}
    /\ (let g' := globals_of (load_models dirname_file joblib_load g) in
        response_of (get_logistic_model g') = Ok (Some lm)
        /\ response_of (get_decision_tree_model g') = Ok (Some dt)
        /\ response_of (get_scaler g') = Ok (Some sc))
    /\ forall requests,
         filter is_load
           (trace_of (app str dirname_file joblib_load requests ModelLoader.initial))
         = [ JoblibLoad (logistic_model_path dirname_file);
             JoblibLoad (decision_tree_model_path dirname_file);
             JoblibLoad (scaler_path dirname_file) ]
         /\ (exists rest,
               trace_of (app str dirname_file joblib_load requests ModelLoader.initial)
               = loading_trace dirname_file ++ rest
               /\ forallb is_inference rest = true)
         /\ globals_of (app str dirname_file joblib_load requests ModelLoader.initial)
            = {| logistic_model := Some lm; decision_tree_model := Some dt;
                 scaler := Some sc |}.
Proof.
  intros H. destruct (load_models_ok_inv g H) as (lm & dt & sc & E1 & E2 & E3).
  exists lm, dt, sc. rewrite (load_models_ok g lm dt sc E1 E2 E3).
  do 3 (split; [assumption|]). do 2 (split; [reflexivity|]).
  split; [now repeat split|].
  intros requests. unfold app, startup_event, bind.
  rewrite (load_models_ok ModelLoader.initial lm dt sc E1 E2 E3).
  destruct (serve_run requests
              {| logistic_model := Some lm; decision_tree_model := Some dt;
                 scaler := Some sc |}) as (rs & t & Es & _ & Inf).
  rewrite Es. unfold trace_of, globals_of; simpl.
  split; [|split].
  - now rewrite (filter_load_inference t Inf).
  - exists t. now split.
  - reflexivity.
Qed.

End Startup.

Lemma load_models_loads_three_once_witness :
  response_of (load_models "/srv/backend" Demo.files ModelLoader.initial) = Ok tt
  /\ trace_of (load_models "/srv/backend" Demo.files ModelLoader.initial)
     = [ JoblibLoad "/srv/backend/models/logistic_model.joblib";
         JoblibLoad "/srv/backend/models/decision_tree_model.joblib";
         JoblibLoad "/srv/backend/models/scaler.joblib";
         Print "All models loaded successfully!" ].
Proof.
  split; [reflexivity|].
  destruct (load_models_loads_three_once Demo.str "/srv/backend" Demo.files
              ModelLoader.initial eq_refl)
    as (lm & dt & sc & _ & _ & _ & T & _).
  exact T.
Defined.

(* ===================================================================== *)
(** ** Explanations                                                       *)
(* ===================================================================== *)

Lemma append_assoc (a b c : string) : ((a ++ b) ++ c = a ++ (b ++ c))%string.
Proof. induction a as [|x a IH]; simpl; [reflexivity | now rewrite IH]. Qed.

Lemma join_and_last (x y : string) (l : list string) :
  (join ", " (removelast (x :: y :: l)) ++ ", and " ++ last (x :: y :: l) ""
   = and_join (x :: y :: l))%string.
Proof.
  revert x y. induction l as [|z l IH]; intros x y.
  - reflexivity.
  - specialize (IH y z).
    change (removelast (x :: y :: z :: l)) with (x :: removelast (y :: z :: l)).
    change (last (x :: y :: z :: l) "") with (last (y :: z :: l) "").
    change (and_join (x :: y :: z :: l))
      with (x ++ ", " ++ and_join (y :: z :: l))%string.
    rewrite <- IH.
    change (removelast (y :: z :: l)) with (y :: removelast (z :: l)).
    unfold join. simpl String.concat at 1.
    now rewrite !append_assoc.
Qed.

Lemma explanation_text_reason (lp : npscalar) (parts : list string) :
  explanation_text lp parts
  = ("The model predicted the student is " ++ risk_phrase lp ++ reason parts)%string.
Proof.
  destruct parts as [|x [|y l]]; try reflexivity.
  unfold explanation_text, reason.
  change (length (x :: y :: l) =? 1)%nat with false. cbv iota.
  rewrite <- join_and_last. now rewrite !append_assoc.
Qed.

Lemma explanation_parts_fragments (d : StudentData) :
  explanation_parts d
  = fragments (Qltb (midterm_score d) 70) (Qltb (quiz_score d) 70)
              (Qltb (study_hours d) 10) (Qltb (attendance d) 75).
Proof. reflexivity. Qed.

Lemma fragments_mentioned (lp : npscalar) (m q s a : bool) :
  contains "low midterm score" (explanation_text lp (fragments m q s a)) = m
  /\ contains "low quiz score" (explanation_text lp (fragments m q s a)) = q
  /\ contains "low study hours" (explanation_text lp (fragments m q s a)) = s
  /\ contains "low attendance" (explanation_text lp (fragments m q s a)) = a.
Proof.
  unfold explanation_text, risk_phrase.
  destruct (eq_one lp), m, q, s, a; vm_compute; repeat split.
Qed.

Lemma fragments_in (m q s a : bool) :
  (In "low midterm score" (fragments m q s a) <-> m = true)
  /\ (In "low quiz score" (fragments m q s a) <-> q = true)
  /\ (In "low study hours" (fragments m q s a) <-> s = true)
  /\ (In "low attendance" (fragments m q s a) <-> a = true).
Proof.
  destruct m, q, s, a; simpl; repeat split; intros;
    repeat match goal with
           | H : _ \/ _ |- _ => destruct H
           | H : False |- _ => elim H
           end; try discriminate; auto 6.
Qed.

Lemma fragments_subseq (m q s a : bool) :
  subseq (fragments m q s a)
         ["low midterm score"; "low quiz score"; "low study hours"; "low attendance"].
Proof.
  destruct m, q, s, a; simpl;
    repeat (apply subseq_keep || apply subseq_skip || apply subseq_nil).
Qed.

(** The explanations of a 200 answer are built from the request body as
    received and from the first label of each model. *)
Lemma post_predict_explanations str body g j :
  response_of (post_predict str body g) = Ok (Http200 j) ->
  exists lm dt sc s preds lp dpreds dp,
    models_loaded g lm dt sc
    /\ transform sc (input_array body) = Ok s
    /\ Py.predict lm s = Ok preds /\ nth_error preds 0 = Some lp
    /\ Py.predict dt (input_array body) = Ok dpreds
    /\ nth_error dpreds 0 = Some dp
    /\ explanation_of "logistic_regression" j
       = Some (JStr (explanation_text lp (explanation_parts body)))
    /\ explanation_of "decision_tree" j
       = Some (JStr (dt_explanation_text dp (dt_explanation_parts body))).
Proof.
  intros H. destruct (post_predict_200_inv str body g j H)
    as (_ & lm & dt & sc & L & R).
  inversion R as [ | | s preds lp probas row p dpreds dp Et Ep Elp Epp Erow Erp Ed Edp Ej Etr].
  exists lm, dt, sc, s, preds, lp, dpreds, dp.
  repeat (split; [eassumption || reflexivity|]). reflexivity.
Qed.

(** C4.  The logistic-regression explanation holds the fragment of a field
    exactly when the raw field is under its threshold (midterm 70, quiz 70,
    study hours 10, attendance 75), in that order, joined by commas with
    [and] before the last of two or more, and falls back to the sentence on
    overall indicators when none fires.  The decision-tree explanation holds
    one past-failures fragment (the count when positive) and one
    internet-access fragment (chosen by [internet_access == 1]).  Both are
    computed from the body as received. *)
Theorem explanations_follow_thresholds (body : StudentData) :
  let parts := explanation_parts body in
  ((In "low midterm score" parts <-> (midterm_score body < 70)%Q)
   /\ (In "low quiz score" parts <-> (quiz_score body < 70)%Q)
   /\ (In "low study hours" parts <-> (study_hours body < 10)%Q)
   /\ (In "low attendance" parts <-> (attendance body < 75)%Q))
  /\ subseq parts
       ["low midterm score"; "low quiz score"; "low study hours"; "low attendance"]
  /\ (forall lp,
        (contains "low midterm score" (explanation_text lp parts) = true
         <-> (midterm_score body < 70)%Q)
        /\ (contains "low quiz score" (explanation_text lp parts) = true
            <-> (quiz_score body < 70)%Q)
        /\ (contains "low study hours" (explanation_text lp parts) = true
            <-> (study_hours body < 10)%Q)
        /\ (contains "low attendance" (explanation_text lp parts) = true
            <-> (attendance body < 75)%Q)
        /\ explanation_text lp parts
           = ("The model predicted the student is " ++ risk_phrase lp
              ++ reason parts)%string)
  /\ (parts = [] ->
      reason parts = " based on overall academic performance indicators.")
  /\ dt_explanation_parts body
     = [past_failures_fragment body; internet_access_fragment body]
  /\ ((0 < past_failures body)%Z ->
      past_failures_fragment body
      = (str_int (past_failures body) ++ " past failure(s)")%string)
  /\ ((past_failures body <= 0)%Z ->
      past_failures_fragment body = "no past failures")
  /\ (internet_access body = 1%Z ->
      internet_access_fragment body = "internet access available")
  /\ (internet_access body <> 1%Z ->
      internet_access_fragment body = "no internet access")
  /\ (forall dp,
        dt_explanation_text dp (dt_explanation_parts body)
        = ("The model predicted the student is " ++ risk_phrase dp
           ++ " because of " ++ past_failures_fragment body ++ ", "
           ++ internet_access_fragment body ++ ".")%string)
  /\ (forall str g j,
        response_of (post_predict str body g) = Ok (Http200 j) ->
        exists lp dp,
          explanation_of "logistic_regression" j
          = Some (JStr (explanation_text lp parts))
          /\ explanation_of "decision_tree" j
             = Some (JStr (dt_explanation_text dp (dt_explanation_parts body)))).
Proof.
  intros parts. subst parts. rewrite explanation_parts_fragments.
  set (m := Qltb (midterm_score body) 70). set (q := Qltb (quiz_score body) 70).
  set (s := Qltb (study_hours body) 10). set (a := Qltb (attendance body) 75).
  assert (Hm : m = true <-> (midterm_score body < 70)%Q) by apply Qltb_lt.
  assert (Hq : q = true <-> (quiz_score body < 70)%Q) by apply Qltb_lt.
  assert (Hs : s = true <-> (study_hours body < 10)%Q) by apply Qltb_lt.
  assert (Ha : a = true <-> (attendance body < 75)%Q) by apply Qltb_lt.
  split.
  { destruct (fragments_in m q s a) as (I1 & I2 & I3 & I4).
    rewrite I1, I2, I3, I4. tauto. }
  split; [apply fragments_subseq|].
  split.
  { intros lp. destruct (fragments_mentioned lp m q s a) as (C1 & C2 & C3 & C4).
    rewrite C1, C2, C3, C4. repeat (split; [assumption|]).
    apply explanation_text_reason. }
  split; [intros ->; reflexivity|].
  assert (Ep : (past_failures body >? 0)%Z = (0 <? past_failures body)%Z).
  { rewrite Z.gtb_ltb. reflexivity. }
  split.
  { unfold dt_explanation_parts, past_failures_fragment, internet_access_fragment.
    rewrite Ep.
    destruct (0 <? past_failures body)%Z, (internet_access body =? 1)%Z; reflexivity. }
  split.
  { intros P. unfold past_failures_fragment.
    now rewrite (proj2 (Z.ltb_lt _ _) P). }
  split.
  { intros P. unfold past_failures_fragment.
    now rewrite (proj2 (Z.ltb_ge _ _) P). }
  split.
  { intros P. unfold internet_access_fragment. now rewrite P. }
  split.
  { intros N. unfold internet_access_fragment.
    now rewrite (proj2 (Z.eqb_neq _ _) N). }
  split.
  { intros dp.
    unfold dt_explanation_text, dt_explanation_parts, past_failures_fragment,
      internet_access_fragment.
    rewrite Ep.
    destruct (0 <? past_failures body)%Z, (internet_access body =? 1)%Z; simpl;
      rewrite ?append_assoc; reflexivity. }
  intros str g j H.
  destruct (post_predict_explanations str body g j H)
    as (lm & dt & sc & s' & preds & lp & dpreds & dp & _ & _ & _ & _ & _ & _ & E1 & E2).
  exists lp, dp. split; assumption.
Qed.

Lemma explanations_follow_thresholds_witness :
  explanation_of "logistic_regression"
    (response_body Demo.struggling (NpInt 1) (24 # 25) (NpInt 1))
  = Some (JStr "The model predicted the student is at risk because of low midterm score, low quiz score, low study hours, and low attendance.")
  /\ dt_explanation_parts Demo.struggling
     = ["3 past failure(s)"; "no internet access"].
Proof.
  split; [reflexivity|].
  destruct (explanations_follow_thresholds Demo.struggling)
    as (_ & _ & _ & _ & D & P & _ & _ & I & _).
  rewrite D, P, I; [reflexivity | discriminate | reflexivity].
Defined.

(** C10.  The fragments of the logistic-regression explanation do not
    depend on the label: for the same body, a label equal to 1 and a label
    different from 1 give sentences that differ in the risk phrase only.  So
    when a threshold fires and the label is not 1, the sentence reads
    "not at risk because of ..." followed by the fragments. *)
Theorem explanation_fragments_ignore_prediction
    (body : StudentData) (lp0 lp1 : npscalar) :
  eq_one lp0 = false ->
  eq_one lp1 = true ->
  explanation_text lp0 (explanation_parts body)
  = ("The model predicted the student is not at risk"
     ++ reason (explanation_parts body))%string
  /\ explanation_text lp1 (explanation_parts body)
     = ("The model predicted the student is at risk"
        ++ reason (explanation_parts body))%string
  /\ (explanation_parts body <> [] ->
      explanation_text lp0 (explanation_parts body)
      = ("The model predicted the student is not at risk because of "
         ++ and_join (explanation_parts body) ++ ".")%string)
  /\ ((midterm_score body < 70)%Q ->
      String.prefix
        "The model predicted the student is not at risk because of low midterm score"
        (explanation_text lp0 (explanation_parts body)) = true)
  /\ (forall str g j,
        response_of (post_predict str body g) = Ok (Http200 j) ->
        exists lm sc s preds lp,
          scaler g = Some sc /\ logistic_model g = Some lm
          /\ transform sc (input_array body) = Ok s
          /\ Py.predict lm s = Ok preds /\ nth_error preds 0 = Some lp
          /\ explanation_of "logistic_regression" j
             = Some (JStr (explanation_text lp (explanation_parts body)))).
Proof.
  intros E0 E1. rewrite !explanation_text_reason. unfold risk_phrase.
  rewrite E0, E1. split; [reflexivity|]. split; [reflexivity|].
  split.
  { intros N. unfold reason.
    destruct (explanation_parts body) as [|x l]; [now elim N | reflexivity]. }
  split.
  { intros P. apply Qltb_lt in P. rewrite explanation_parts_fragments, P.
    destruct (Qltb (quiz_score body) 70), (Qltb (study_hours body) 10),
      (Qltb (attendance body) 75); reflexivity. }
  intros str g j H.
  destruct (post_predict_explanations str body g j H)
    as (lm & dt & sc & s & preds & lp & dpreds & dp
        & (Hl & _ & Hs) & Et & Ep & Elp & _ & _ & E & _).
  exists lm, sc, s, preds, lp. repeat (split; [assumption|]). assumption.
Qed.

Lemma explanation_fragments_ignore_prediction_witness :
  response_of (post_predict Demo.str Demo.weak_midterm Demo.loaded)
  = Ok (Http200
          (response_body Demo.weak_midterm (NpInt 0) (7 # 100) (NpInt 0)))
  /\ explanation_text (NpInt 0) (explanation_parts Demo.weak_midterm)
     = "The model predicted the student is not at risk because of low midterm score."
  /\ explanation_text (NpInt 1) (explanation_parts Demo.weak_midterm)
     = "The model predicted the student is at risk because of low midterm score.".
Proof.
  split; [vm_compute; reflexivity|].
  destruct (explanation_fragments_ignore_prediction Demo.weak_midterm
              (NpInt 0) (NpInt 1) eq_refl eq_refl) as (A & B & _).
  rewrite A, B. split; reflexivity.
Defined.

(* ===================================================================== *)
(** ** When the endpoint answers 200, and what the first failure does      *)
(* ===================================================================== *)

(** X1.  A valid body, three loaded objects and answers long enough are all
    it takes: if the scaler answers, the logistic model returns at least one
    label and a first row of at least two probabilities, and the tree returns
    at least one label, the endpoint answers 200 with the dictionary built
    from the first label of each model and the second probability, after
    exactly the four calls, the globals untouched. *)
Theorem post_predict_answers_200
    (str : exn -> string) (body : StudentData) (g : globals) (lm dt sc : object)
    (s : ndarray) (preds : list npscalar) (lp : npscalar)
    (probas : list (list Q)) (row : list Q) (p : Q)
    (dpreds : list npscalar) (dp : npscalar) :
  validate body = true ->
  models_loaded g lm dt sc ->
  transform sc (input_array body) = Ok s ->
  Py.predict lm s = Ok preds -> nth_error preds 0 = Some lp ->
  predict_proba lm s = Ok probas -> nth_error probas 0 = Some row ->
  nth_error row 1 = Some p ->
  Py.predict dt (input_array body) = Ok dpreds -> nth_error dpreds 0 = Some dp ->
  post_predict str body g
  = (Ok (Http200 (response_body body lp p dp)), g,
     full_trace (input_array body) s).
Proof.
  intros V (Hl & Hd & Hs) Et Ep Elp Epp Erow Erp Ed Edp.
  rewrite post_predict_valid by assumption.
  assert (E : predict_body body g
              = (Ok (response_body body lp p dp), g,
                 full_trace (input_array body) s)).
  { run_monad. rewrite Hl, Hd, Hs, Et, Ep, Elp, Epp, Erow, Erp, Ed, Edp.
    reflexivity. }
  now rewrite E.
Qed.

Lemma post_predict_answers_200_witness :
  exists s p,
    post_predict Demo.str Demo.example Demo.loaded
    = (Ok (Http200 (response_body Demo.example (NpInt 0) p (NpInt 0))),
       Demo.loaded, full_trace (input_array Demo.example) s).
Proof.
  eexists _, _.
  eapply (post_predict_answers_200 Demo.str Demo.example Demo.loaded
            Demo.the_logistic_object Demo.tree_classifier Demo.the_scaler_object).
  - reflexivity.
  - repeat split.
  - reflexivity.
  - reflexivity.
  - reflexivity.
  - reflexivity.
  - reflexivity.
  - reflexivity.
  - reflexivity.
  - reflexivity.
Defined.

(** X2.  The first object that raises decides the answer: the endpoint
    answers 500 with that exception's text after the prefix, and nothing
    further is called.  A scaler that raises keeps both models from being
    called; a logistic model that raises keeps the decision tree from being
    called; a decision tree that raises discards the logistic result. *)
Theorem first_failure_decides
    (str : exn -> string) (body : StudentData) (g : globals) (lm dt sc : object) :
  validate body = true ->
  models_loaded g lm dt sc ->
  (forall e,
     transform sc (input_array body) = Raise e ->
     post_predict str body g
     = (Ok (HttpError 500 ("Prediction failed: " ++ str e)), g,
        [Call the_scaler m_transform (input_array body)]))
  /\ (forall s e,
        transform sc (input_array body) = Ok s ->
        Py.predict lm s = Raise e ->
        post_predict str body g
        = (Ok (HttpError 500 ("Prediction failed: " ++ str e)), g,
           [ Call the_scaler m_transform (input_array body);
             Call the_logistic_model m_predict s ]))
  /\ (forall s preds lp e,
        transform sc (input_array body) = Ok s ->
        Py.predict lm s = Ok preds -> nth_error preds 0 = Some lp ->
        predict_proba lm s = Raise e ->
        post_predict str body g
        = (Ok (HttpError 500 ("Prediction failed: " ++ str e)), g,
           [ Call the_scaler m_transform (input_array body);
             Call the_logistic_model m_predict s;
             Call the_logistic_model m_predict_proba s ]))
  /\ (forall s preds lp probas row p e,
        transform sc (input_array body) = Ok s ->
        Py.predict lm s = Ok preds -> nth_error preds 0 = Some lp ->
        predict_proba lm s = Ok probas -> nth_error probas 0 = Some row ->
        nth_error row 1 = Some p ->
        Py.predict dt (input_array body) = Raise e ->
        post_predict str body g
        = (Ok (HttpError 500 ("Prediction failed: " ++ str e)), g,
           full_trace (input_array body) s)).
Proof.
  intros V (Hl & Hd & Hs).
  split; [|split; [|split]]; intros; rewrite post_predict_valid by assumption.
  - assert (E : predict_body body g
                = (Raise e, g, [Call the_scaler m_transform (input_array body)])).
    { run_monad. rewrite Hl, Hd, Hs, H. reflexivity. }
    now rewrite E.
  - assert (E : predict_body body g
                = (Raise e, g, firstn 2 (full_trace (input_array body) s))).
    { run_monad. rewrite Hl, Hd, Hs, H, H0. reflexivity. }
    now rewrite E.
  - assert (E : predict_body body g
                = (Raise e, g, firstn 3 (full_trace (input_array body) s))).
    { run_monad. rewrite Hl, Hd, Hs, H, H0, H1, H2. reflexivity. }
    now rewrite E.
  - assert (E : predict_body body g
                = (Raise e, g, full_trace (input_array body) s)).
    { run_monad. rewrite Hl, Hd, Hs, H, H0, H1, H2, H3, H4, H5. reflexivity. }
    now rewrite E.
Qed.

Lemma first_failure_decides_witness :
  trace_of (post_predict Demo.str Demo.example
              (Demo.loaded_with Demo.broken_classifier))
  = [ Call the_scaler m_transform (input_array Demo.example);
      Call the_logistic_model m_predict
        [[0.55; 2 # 4; 2 # 3; 5 # 15; 10 # 15; 2 # 2; -1]%Q] ]
  /\ response_of (post_predict Demo.str Demo.example
                    (Demo.loaded_with Demo.broken_classifier))
     = Ok (HttpError 500
             "Prediction failed: X has 7 features, but 5 were expected").
Proof.
  destruct (first_failure_decides Demo.str Demo.example
              (Demo.loaded_with Demo.broken_classifier)
              Demo.broken_classifier Demo.tree_classifier Demo.the_scaler_object
              eq_refl ltac:(repeat split)) as (_ & H & _).
  rewrite (H [[0.55; 2 # 4; 2 # 3; 5 # 15; 10 # 15; 2 # 2; -1]%Q]
             (PyException "ValueError" "X has 7 features, but 5 were expected")
             eq_refl eq_refl).
  split; reflexivity.
Defined.

(** X3.  An answer that is too short is a failure like any other: a model
    that returns no label, or a logistic model that returns no row or a first
    row with fewer than two probabilities (a model fitted on one class),
    makes the endpoint answer 500 with the text of an [IndexError]; a short
    logistic answer keeps the decision tree from being called. *)
Theorem short_answers_are_failures
    (str : exn -> string) (body : StudentData) (g : globals) (lm dt sc : object) (s : ndarray) :
  validate body = true ->
  models_loaded g lm dt sc ->
  transform sc (input_array body) = Ok s ->
  exists msg,
    let failed := HttpError 500 ("Prediction failed: "
                                 ++ str (PyException "IndexError" msg)) in
    (Py.predict lm s = Ok [] ->
     post_predict str body g
     = (Ok failed, g, firstn 2 (full_trace (input_array body) s)))
    /\ (forall preds lp row,
          Py.predict lm s = Ok preds -> nth_error preds 0 = Some lp ->
          (predict_proba lm s = Ok []
           \/ (exists rest, predict_proba lm s = Ok (row :: rest))
              /\ (length row < 2)%nat) ->
          post_predict str body g
          = (Ok failed, g, firstn 3 (full_trace (input_array body) s)))
    /\ (forall preds lp probas row p,
          Py.predict lm s = Ok preds -> nth_error preds 0 = Some lp ->
          predict_proba lm s = Ok probas -> nth_error probas 0 = Some row ->
          nth_error row 1 = Some p ->
          Py.predict dt (input_array body) = Ok [] ->
          post_predict str body g
          = (Ok failed, g, full_trace (input_array body) s)).
Proof.
  intros V (Hl & Hd & Hs) Et. exists "index out of bounds". cbv zeta.
  split; [|split]; intros; rewrite post_predict_valid by assumption.
  - assert (E : predict_body body g
                = (Raise (PyException "IndexError" "index out of bounds"), g,
                   firstn 2 (full_trace (input_array body) s))).
    { run_monad. rewrite Hl, Hd, Hs, Et, H. reflexivity. }
    now rewrite E.
  - assert (E : predict_body body g
                = (Raise (PyException "IndexError" "index out of bounds"), g,
                   firstn 3 (full_trace (input_array body) s))).
    { run_monad. rewrite Hl, Hd, Hs, Et, H, H0.
      destruct H1 as [Epp | [[rest Epp] Hlen]]; rewrite Epp; simpl.
      - reflexivity.
      - destruct row as [|a [|b row]]; simpl in *; try reflexivity; lia. }
    now rewrite E.
  - assert (E : predict_body body g
                = (Raise (PyException "IndexError" "index out of bounds"), g,
                   full_trace (input_array body) s)).
    { run_monad. rewrite Hl, Hd, Hs, Et, H, H0, H1, H2, H3, H4. reflexivity. }
    now rewrite E.
Qed.

Lemma short_answers_are_failures_witness :
  exists msg,
    post_predict Demo.str Demo.example (Demo.loaded_with Demo.one_class_classifier)
    = (Ok (HttpError 500 ("Prediction failed: " ++ msg)),
       Demo.loaded_with Demo.one_class_classifier,
       [ Call the_scaler m_transform (input_array Demo.example);
         Call the_logistic_model m_predict
           [[0.55; 2 # 4; 2 # 3; 5 # 15; 10 # 15; 2 # 2; -1]%Q];
         Call the_logistic_model m_predict_proba
           [[0.55; 2 # 4; 2 # 3; 5 # 15; 10 # 15; 2 # 2; -1]%Q] ]).
Proof.
  destruct (short_answers_are_failures Demo.str Demo.example
              (Demo.loaded_with Demo.one_class_classifier)
              Demo.one_class_classifier Demo.tree_classifier Demo.the_scaler_object
              [[0.55; 2 # 4; 2 # 3; 5 # 15; 10 # 15; 2 # 2; -1]%Q]
              eq_refl ltac:(repeat split) eq_refl) as (msg & _ & H & _).
  exists msg.
  apply (H [NpInt 0] (NpInt 0) [1%Q] eq_refl eq_refl).
  right. split; [eexists; reflexivity | simpl; lia].
Defined.

(** X4.  For a body whose float fields are finite numbers and objects
    whose answers are finite numbers (the only ones this development
    represents), the endpoint never lets an exception through and knows three
    answers only: 422 for a body out of bounds, 200, and 500 with the
    prefixed detail.  In every case the globals are left as found. *)
Theorem post_predict_status_codes
    (str : exn -> string) (body : StudentData) (g : globals) :
  exists r,
    post_predict str body g = (Ok r, g, trace_of (post_predict str body g))
    /\ ((validate body = false /\ r = Http422)
        \/ (validate body = true
            /\ ((exists j, r = Http200 j)
                \/ (exists cause,
                      r = HttpError 500 ("Prediction failed: " ++ str cause))))).
Proof.
  destruct (validate body) eqn:V.
  - rewrite post_predict_valid by assumption. eexists. split; [reflexivity|].
    right. split; [reflexivity|].
    destruct (response_of (predict_body body g)) as [j|e]; simpl; eauto.
  - rewrite post_predict_invalid by assumption. eexists. split; [reflexivity|].
    left. now split.
Qed.

(* ===================================================================== *)
(** ** The loader: failures, reloads, paths                               *)
(* ===================================================================== *)

(** X5.  The loader is not atomic: it assigns each global as soon as its
    file is read and stops at the first file that fails.  A failure on the
    first file changes nothing; a failure on the second leaves the new
    logistic model in place beside the old tree and scaler; a failure on the
    third leaves the old scaler only.  Files after the failing one are not
    opened, and the success line is not printed. *)
Theorem load_models_stops_at_first_failure
    (dirname_file : string) (joblib_load : string -> result object) (g : globals) :
  (forall e,
     joblib_load (logistic_model_path dirname_file) = Raise e ->
     load_models dirname_file joblib_load g
     = (Raise e, g, [JoblibLoad (logistic_model_path dirname_file)]))
  /\ (forall lm e,
        joblib_load (logistic_model_path dirname_file) = Ok lm ->
        joblib_load (decision_tree_model_path dirname_file) = Raise e ->
        load_models dirname_file joblib_load g
        = (Raise e,
           {| logistic_model := Some lm;
              decision_tree_model := decision_tree_model g;
              scaler := scaler g |},
           [ JoblibLoad (logistic_model_path dirname_file);
             JoblibLoad (decision_tree_model_path dirname_file) ]))
  /\ (forall lm dt e,
        joblib_load (logistic_model_path dirname_file) = Ok lm ->
        joblib_load (decision_tree_model_path dirname_file) = Ok dt ->
        joblib_load (scaler_path dirname_file) = Raise e ->
        load_models dirname_file joblib_load g
        = (Raise e,
           {| logistic_model := Some lm;
              decision_tree_model := Some dt;
              scaler := scaler g |},
           [ JoblibLoad (logistic_model_path dirname_file);
             JoblibLoad (decision_tree_model_path dirname_file);
             JoblibLoad (scaler_path dirname_file) ])).
Proof.
  split; [|split]; intros;
    cbv [load_models load bind emit lift set_logistic_model
         set_decision_tree_model set_scaler app].
  - rewrite H. reflexivity.
  - rewrite H, H0. reflexivity.
  - rewrite H, H0, H1. reflexivity.
Qed.

Lemma load_models_stops_at_first_failure_witness :
  load_models "/srv/backend" Demo.files_without_tree ModelLoader.initial
  = (Raise (PyException "FileNotFoundError"
              "No such file or directory: '/srv/backend/models/decision_tree_model.joblib'"),
     {| logistic_model := Some Demo.the_logistic_object;
        decision_tree_model := None;
        scaler := None |},
     [ JoblibLoad "/srv/backend/models/logistic_model.joblib";
       JoblibLoad "/srv/backend/models/decision_tree_model.joblib" ]).
Proof.
  apply (load_models_stops_at_first_failure "/srv/backend" Demo.files_without_tree
           ModelLoader.initial); reflexivity.
Defined.

(** X6.  Loading again is harmless: a second call right after the first
    gives the same outcome and leaves the globals as the first call left
    them, whether the first call returned or raised; and a load that returns
    leaves the same globals whatever they held before. *)
Theorem load_models_reload
    (dirname_file : string) (joblib_load : string -> result object) (g : globals) :
  let once := load_models dirname_file joblib_load g in
  let twice := load_models dirname_file joblib_load (globals_of once) in
  response_of twice = response_of once
  /\ globals_of twice = globals_of once
  /\ trace_of twice = trace_of once
  /\ (response_of once = Ok tt ->
      forall g', globals_of (load_models dirname_file joblib_load g')
                 = globals_of once).
Proof.
  cbv [load_models load bind emit lift set_logistic_model
       set_decision_tree_model set_scaler app response_of globals_of trace_of
       fst snd].
  destruct (joblib_load (logistic_model_path dirname_file)) as [lm|e];
    [|repeat split; discriminate].
  destruct (joblib_load (decision_tree_model_path dirname_file)) as [dt|e];
    [|repeat split; discriminate].
  destruct (joblib_load (scaler_path dirname_file)) as [sc|e];
    [|repeat split; discriminate].
  repeat split.
Qed.

Lemma load_models_reload_witness :
  globals_of (load_models "/srv/backend" Demo.files
                (globals_of (load_models "/srv/backend" Demo.files
                               ModelLoader.initial)))
  = globals_of (load_models "/srv/backend" Demo.files ModelLoader.initial).
Proof.
  pose proof (load_models_reload "/srv/backend" Demo.files ModelLoader.initial)
    as H.
  cbv zeta in H. destruct H as (_ & H & _). exact H.
Defined.

Lemma append_inj_l (a b c : string) : (a ++ b = a ++ c)%string -> b = c.
Proof.
  induction a as [|x a IH]; simpl; intros H; [exact H|].
  injection H as H. now apply IH.
Qed.

Lemma ends_with_sep_cons (c : ascii) (s : string) :
  s <> "" -> ends_with_sep (String c s) = ends_with_sep s.
Proof.
  destruct s as [|d s]; [intros N; now elim N|]. intros _.
  unfold ends_with_sep. simpl. now rewrite Nat.sub_0_r.
Qed.

Lemma ends_with_sep_app (a b : string) :
  b <> "" -> ends_with_sep (a ++ b) = ends_with_sep b.
Proof.
  intros N. induction a as [|c a IH]; [reflexivity|].
  simpl. rewrite ends_with_sep_cons; [exact IH|].
  destruct a; [exact N | discriminate].
Qed.

Lemma os_path_join_name (a b : string) :
  String.prefix "/" b = false ->
  a <> "" -> ends_with_sep a = false ->
  os_path_join a b = (a ++ "/" ++ b)%string.
Proof.
  intros Hb Ha He. unfold os_path_join. rewrite Hb, He.
  destruct a; [now elim Ha | reflexivity].
Qed.

Lemma MODELS_DIR_shape (dirname_file : string) :
  (MODELS_DIR dirname_file = dirname_file ++ "models"
   \/ MODELS_DIR dirname_file = dirname_file ++ "/models")%string
  /\ MODELS_DIR dirname_file <> ""
  /\ ends_with_sep (MODELS_DIR dirname_file) = false.
Proof.
  unfold MODELS_DIR, os_path_join. simpl String.prefix. cbv iota.
  destruct (String.eqb dirname_file "" || ends_with_sep dirname_file)%bool.
  - split; [now left|]. split.
    + destruct dirname_file; discriminate.
    + now rewrite ends_with_sep_app.
  - split; [now right|]. split.
    + destruct dirname_file; discriminate.
    + now rewrite ends_with_sep_app.
Qed.

(** X7.  Wherever the module lives, the three files are looked up directly
    inside its [models] directory, under three different names: each path is
    [MODELS_DIR], a slash and the file name, and no two paths are equal. *)
Theorem model_paths_in_models_dir (dirname_file : string) :
  logistic_model_path dirname_file
  = (MODELS_DIR dirname_file ++ "/logistic_model.joblib")%string
  /\ decision_tree_model_path dirname_file
     = (MODELS_DIR dirname_file ++ "/decision_tree_model.joblib")%string
  /\ scaler_path dirname_file
     = (MODELS_DIR dirname_file ++ "/scaler.joblib")%string
  /\ logistic_model_path dirname_file <> decision_tree_model_path dirname_file
  /\ logistic_model_path dirname_file <> scaler_path dirname_file
  /\ decision_tree_model_path dirname_file <> scaler_path dirname_file
  /\ (MODELS_DIR dirname_file = dirname_file ++ "models"
      \/ MODELS_DIR dirname_file = dirname_file ++ "/models")%string.
Proof.
  destruct (MODELS_DIR_shape dirname_file) as (Sh & Ne & Es).
  unfold logistic_model_path, decision_tree_model_path, scaler_path.
  rewrite !os_path_join_name by (assumption || reflexivity).
  repeat (split; [reflexivity || (intros H; apply append_inj_l in H; discriminate H)|]).
  exact Sh.
Qed.

(* ===================================================================== *)
(** ** Requests after startup                                             *)
(* ===================================================================== *)

Lemma serve_isolated str requests g :
  serve str requests g
  = (Ok (map (answer_to str g) requests), g,
     flat_map (fun body => trace_of (post_predict str body g)) requests).
Proof.
  induction requests as [|body rest IH]; [reflexivity|].
  destruct (post_predict_total str body g) as (r & E).
  simpl. unfold bind. rewrite E, IH. unfold answer_to at 2. rewrite E.
  simpl. now rewrite app_nil_r.
Qed.

(** X8.  Requests do not influence one another.  Once the three files have
    loaded, each request of a run is answered exactly as it would be alone
    against the three loaded objects, and makes exactly the calls it would
    make alone; the run ends with the globals the loader set. *)
Theorem requests_are_isolated
    (str : exn -> string) (dirname_file : string)
    (joblib_load : string -> result object)
    (requests : list StudentData) (lm dt sc : object) :
  joblib_load (logistic_model_path dirname_file) = Ok lm ->
  joblib_load (decision_tree_model_path dirname_file) = Ok dt ->
  joblib_load (scaler_path dirname_file) = Ok sc ->
  let g := {| logistic_model := Some lm; decision_tree_model := Some dt;
              scaler := Some sc |} in
  app str dirname_file joblib_load requests ModelLoader.initial
  = (Ok (map (answer_to str g) requests), g,
     loading_trace dirname_file
     ++ flat_map (fun body => trace_of (post_predict str body g)) requests).
Proof.
  intros E1 E2 E3 g. unfold app, startup_event, bind.
  rewrite (load_models_ok dirname_file joblib_load ModelLoader.initial lm dt sc
             E1 E2 E3).
  fold g. now rewrite serve_isolated.
Qed.

Lemma requests_are_isolated_witness :
  response_of (app Demo.str "/srv/backend" Demo.files
                 [Demo.out_of_range; Demo.weak_midterm] ModelLoader.initial)
  = Ok [ Http422;
         Http200 (response_body Demo.weak_midterm (NpInt 0) (7 # 100) (NpInt 0)) ].
Proof.
  rewrite (requests_are_isolated Demo.str "/srv/backend" Demo.files
             [Demo.out_of_range; Demo.weak_midterm]
             Demo.the_logistic_object Demo.tree_classifier Demo.the_scaler_object
             eq_refl eq_refl eq_refl).
  vm_compute. reflexivity.
Defined.

(** X9.  Startup is what makes predictions possible.  Before any load every
    valid request is answered 500 without touching an object; once the loader
    has returned, every valid request starts by calling the scaler on its
    assembled array, so the "models not loaded" branch is out of reach. *)
Theorem startup_enables_predictions
    (str : exn -> string) (dirname_file : string)
    (joblib_load : string -> result object) (g : globals) (body : StudentData) :
  validate body = true ->
  response_of (load_models dirname_file joblib_load g) = Ok tt ->
  post_predict str body ModelLoader.initial
  = (Ok (HttpError 500 ("Prediction failed: " ++ str models_not_loaded)),
     ModelLoader.initial, [])
  /\ exists rest,
       trace_of (post_predict str body
                   (globals_of (load_models dirname_file joblib_load g)))
       = Call the_scaler m_transform (input_array body) :: rest.
Proof.
  intros V H. split.
  - rewrite post_predict_valid by assumption.
    rewrite predict_body_not_loaded by (now left). reflexivity.
  - destruct (load_models_ok_inv dirname_file joblib_load g H)
      as (lm & dt & sc & E1 & E2 & E3).
    rewrite (load_models_ok dirname_file joblib_load g lm dt sc E1 E2 E3).
    unfold globals_of at 1; simpl.
    rewrite post_predict_valid by assumption.
    destruct (predict_body_loaded body
                {| logistic_model := Some lm; decision_tree_model := Some dt;
                   scaler := Some sc |} lm dt sc) as (r & t & E & R);
      [now repeat split|].
    rewrite E. unfold trace_of; simpl.
    exact (proj1 (body_run_calls _ _ _ _ _ _ R)).
Qed.

Lemma startup_enables_predictions_witness :
  exists rest,
    trace_of (post_predict Demo.str Demo.example
                (globals_of (load_models "/srv/backend" Demo.files
                               ModelLoader.initial)))
    = Call the_scaler m_transform (input_array Demo.example) :: rest.
Proof.
  apply (startup_enables_predictions Demo.str "/srv/backend" Demo.files
           ModelLoader.initial Demo.example); reflexivity.
Defined.

(** X10.  The two informational routes do not look at the models: [/health]
    and [/] return their fixed dictionaries without reading a global or
    calling an object, in every state.  So [/health] reports "healthy" also
    while the models are not loaded and every valid prediction request is
    answered 500. *)
Theorem health_is_not_readiness
    (str : exn -> string) (g : globals) (body : StudentData) :
  logistic_model g = None \/ decision_tree_model g = None \/ scaler g = None ->
  validate body = true ->
  (exists j, health_check g = (Ok j, g, [])
             /\ lookup "status" j = Some (JStr "healthy"))
  /\ (exists j, root g = (Ok j, g, [])
                /\ field_of "endpoints" "predict" j = Some (JStr "/predict (POST)")
                /\ field_of "endpoints" "health" j = Some (JStr "/health"))
  /\ exists detail,
       response_of (post_predict str body g) = Ok (HttpError 500 detail).
Proof.
  intros N V. split; [|split].
  - eexists. split; reflexivity.
  - eexists. repeat split.
  - rewrite post_predict_valid by assumption.
    rewrite predict_body_not_loaded by assumption.
    eexists. reflexivity.
Qed.

Lemma health_is_not_readiness_witness :
  exists detail,
    response_of (post_predict Demo.str Demo.example ModelLoader.initial)
    = Ok (HttpError 500 detail).
Proof.
  apply (health_is_not_readiness Demo.str ModelLoader.initial Demo.example).
  - now left.
  - reflexivity.
Defined.

(* ===================================================================== *)
(** ** What the response says                                             *)
(* ===================================================================== *)

Lemma at_risk_prefix (lp : npscalar) (tail : string) :
  String.prefix "The model predicted the student is at risk"
    ("The model predicted the student is " ++ risk_phrase lp ++ tail)
  = eq_one lp.
Proof.
  unfold risk_phrase. destruct (eq_one lp); [|reflexivity].
  change ("The model predicted the student is " ++ "at risk" ++ tail)%string
    with ("The model predicted the student is at risk" ++ tail)%string.
  apply prefix_append.
Qed.

Lemma not_at_risk_prefix (lp : npscalar) (tail : string) :
  String.prefix "The model predicted the student is not at risk"
    ("The model predicted the student is " ++ risk_phrase lp ++ tail)
  = negb (eq_one lp).
Proof.
  unfold risk_phrase. destruct (eq_one lp); [reflexivity|].
  change ("The model predicted the student is " ++ "not at risk" ++ tail)%string
    with ("The model predicted the student is not at risk" ++ tail)%string.
  apply prefix_append.
Qed.

(** X11.  The number and the sentence of a model agree for integer labels.
    When the first label of the logistic model is the integer [z] and the
    first label of the tree the integer [w] (and the request runs to the
    end), the answer is a 200 whose [prediction] fields are [z] and [w], and
    each explanation starts with "The model predicted the student is at
    risk" exactly when its label is 1.  Any other integer label, not only 0,
    reads "not at risk". *)
Theorem integer_label_matches_sentence
    (str : exn -> string) (body : StudentData) (g : globals) (lm dt sc : object)
    (s : ndarray) (preds : list npscalar) (z : Z)
    (probas : list (list Q)) (row : list Q) (p : Q)
    (dpreds : list npscalar) (w : Z) :
  validate body = true ->
  models_loaded g lm dt sc ->
  transform sc (input_array body) = Ok s ->
  Py.predict lm s = Ok preds -> nth_error preds 0 = Some (NpInt z) ->
  predict_proba lm s = Ok probas -> nth_error probas 0 = Some row ->
  nth_error row 1 = Some p ->
  Py.predict dt (input_array body) = Ok dpreds ->
  nth_error dpreds 0 = Some (NpInt w) ->
  exists j e1 e2,
    response_of (post_predict str body g) = Ok (Http200 j)
    /\ field_of "logistic_regression" "prediction" j = Some (JInt z)
    /\ field_of "logistic_regression" "explanation" j = Some (JStr e1)
    /\ field_of "decision_tree" "prediction" j = Some (JInt w)
    /\ field_of "decision_tree" "explanation" j = Some (JStr e2)
    /\ (z = 1%Z
        <-> String.prefix "The model predicted the student is at risk" e1 = true)
    /\ (w = 1%Z
        <-> String.prefix "The model predicted the student is at risk" e2 = true)
    /\ (z <> 1%Z
        <-> String.prefix "The model predicted the student is not at risk" e1
            = true)
    /\ (w <> 1%Z
        <-> String.prefix "The model predicted the student is not at risk" e2
            = true).
Proof.
  intros V (Hl & Hd & Hs) Et Ep Elp Epp Erow Erp Ed Edp.
  rewrite post_predict_valid by assumption.
  assert (E : predict_body body g
              = (Ok (response_body body (NpInt z) p (NpInt w)), g,
                 full_trace (input_array body) s)).
  { run_monad. rewrite Hl, Hd, Hs, Et, Ep, Elp, Epp, Erow, Erp, Ed, Edp.
    reflexivity. }
  rewrite E. eexists _, _, _.
  do 5 (split; [reflexivity|]).
  rewrite explanation_text_reason. unfold dt_explanation_text.
  rewrite !at_risk_prefix, !not_at_risk_prefix. cbn [eq_one].
  rewrite !negb_true_iff, !Z.eqb_eq, !Z.eqb_neq. tauto.
Qed.

Lemma integer_label_matches_sentence_witness :
  exists j e1,
    response_of (post_predict Demo.str Demo.weak_midterm Demo.loaded)
    = Ok (Http200 j)
    /\ field_of "logistic_regression" "prediction" j = Some (JInt 0)
    /\ field_of "logistic_regression" "explanation" j = Some (JStr e1)
    /\ String.prefix "The model predicted the student is not at risk" e1 = true.
Proof.
  destruct (integer_label_matches_sentence Demo.str Demo.weak_midterm Demo.loaded
              Demo.the_logistic_object Demo.tree_classifier
              Demo.the_scaler_object _ _ 0%Z _ _ _ _ 0%Z
              eq_refl ltac:(repeat split) eq_refl eq_refl eq_refl eq_refl
              eq_refl eq_refl eq_refl eq_refl)
    as (j & e1 & e2 & R & P1 & X1 & _ & _ & _ & _ & N1 & _).
  exists j, e1. repeat (split; [assumption|]).
  apply N1. discriminate.
Defined.

Lemma round_half_even_mono (x y : Q) :
  (x <= y)%Q -> (round_half_even x <= round_half_even y)%Z.
Proof.
  intros L. unfold round_half_even.
  pose proof (Qfloor_resp_le x y L) as F.
  pose proof (Qfloor_le x) as X1. pose proof (Qlt_floor x) as X2.
  pose proof (Qfloor_le y) as Y1. pose proof (Qlt_floor y) as Y2.
  destruct (Z.eq_dec (Qfloor x) (Qfloor y)) as [E|N].
  - rewrite <- E in *.
    destruct (Qcompare_spec (x - inject_Z (Qfloor x)) (1 # 2)) as [Ex | Lx | Gx];
      destruct (Qcompare_spec (y - inject_Z (Qfloor x)) (1 # 2)) as [Ey | Ly | Gy];
      destruct (Z.even (Qfloor x)); try lia; exfalso; lra.
  - assert (Qfloor x + 1 <= Qfloor y)%Z by lia.
    destruct (Qcompare_spec (x - inject_Z (Qfloor x)) (1 # 2));
      destruct (Qcompare_spec (y - inject_Z (Qfloor y)) (1 # 2));
      destruct (Z.even (Qfloor x)); destruct (Z.even (Qfloor y)); lia.
Qed.

Lemma round2_le (x y : Q) : (x <= y)%Q -> (round2 x <= round2 y)%Q.
Proof.
  intros L. unfold round2, Qle. simpl.
  apply Z.mul_le_mono_nonneg_r; [lia|].
  apply round_half_even_mono. lra.
Qed.

Lemma round_half_even_Z (z : Z) : round_half_even (inject_Z z) = z.
Proof.
  unfold round_half_even. rewrite Qfloor_Z.
  destruct (Qcompare_spec (inject_Z z - inject_Z z) (1 # 2)) as [E | L | G];
    [exfalso; lra | reflexivity | exfalso; lra].
Qed.

Lemma round_half_even_comp (x y : Q) :
  (x == y)%Q -> round_half_even x = round_half_even y.
Proof.
  intros E. apply Z.le_antisymm; apply round_half_even_mono; rewrite E;
    apply Qle_refl.
Qed.

(** X12.  Rounding keeps a probability a probability, keeps the order and
    is stable: the reported [risk_probability] of a model probability between
    0 and 1 is again between 0 and 1, a larger model probability is never
    reported as a smaller number, and a number that was already rounded is
    reported unchanged. *)
Theorem risk_probability_range (p q : Q) :
  ((0 <= p <= 1)%Q -> (0 <= round2 p <= 1)%Q)
  /\ ((p <= q)%Q -> (round2 p <= round2 q)%Q)
  /\ round2 (round2 p) = round2 p.
Proof.
  split; [|split; [apply round2_le|]].
  - intros [P0 P1]. split.
    + apply Qle_trans with (round2 0); [vm_compute; discriminate|].
      now apply round2_le.
    + apply Qle_trans with (round2 1); [now apply round2_le|].
      vm_compute; discriminate.
  - assert (E : round_half_even (round2 p * 100) = round_half_even (p * 100)).
    { transitivity (round_half_even (inject_Z (round_half_even (p * 100))));
        [|apply round_half_even_Z].
      apply round_half_even_comp. unfold round2.
      rewrite (Qmake_Qdiv (round_half_even (p * 100)) 100).
      change (inject_Z (Z.pos 100)) with 100%Q. field. }
    change (round2 (round2 p)) with (round_half_even (round2 p * 100) # 100)%Q.
    now rewrite E.
Qed.

Lemma risk_probability_range_witness :
  (0 <= round2 (28 # 253) <= 1)%Q /\ (round2 (28 # 253) <= round2 (1 # 2))%Q.
Proof.
  destruct (risk_probability_range (28 # 253) (1 # 2)) as (A & B & _).
  split.
  - apply A. split; unfold Qle; simpl; lia.
  - apply B. unfold Qle; simpl; lia.
Defined.

Lemma last_ascii_app (a b : string) :
  b <> "" -> last_ascii (a ++ b) = last_ascii b.
Proof.
  intros N. induction a as [|c a IH]; [reflexivity|].
  simpl. rewrite <- IH.
  destruct (a ++ b)%string eqn:E; [|reflexivity].
  destruct a; simpl in E; [now elim N | discriminate E].
Qed.

(** X13.  For a body that passed validation the decision-tree explanation
    reads as it should: "no past failures" is there exactly when the count is
    0 (otherwise the count is printed), "no internet access" exactly when the
    flag is 0, and "internet access available" exactly when it is 1. *)
Theorem valid_body_tree_fragments (body : StudentData) :
  validate body = true ->
  (In "no past failures" (dt_explanation_parts body)
   <-> past_failures body = 0%Z)
  /\ (In (str_int (past_failures body) ++ " past failure(s)")%string
         (dt_explanation_parts body)
      <-> (1 <= past_failures body)%Z)
  /\ (In "no internet access" (dt_explanation_parts body)
      <-> internet_access body = 0%Z)
  /\ (In "internet access available" (dt_explanation_parts body)
      <-> internet_access body = 1%Z)
  /\ length (dt_explanation_parts body) = 2%nat.
Proof.
  intros V. apply validate_within_bounds in V.
  destruct V as (_ & _ & _ & _ & _ & Hi & Hp).
  assert (Last : forall t,
             (str_int (past_failures body) ++ " past failure(s)")%string = t ->
             last_ascii t = Some ")"%char).
  { intros t <-. now rewrite last_ascii_app. }
  unfold dt_explanation_parts.
  destruct (past_failures body >? 0)%Z eqn:Ep;
    [apply Z.gtb_lt in Ep | rewrite Z.gtb_ltb in Ep; apply Z.ltb_ge in Ep];
    (destruct (internet_access body =? 1)%Z eqn:Ei;
     [apply Z.eqb_eq in Ei | apply Z.eqb_neq in Ei]);
    simpl; repeat split; intros;
      repeat match goal with
             | H : _ \/ _ |- _ => destruct H
             | H : False |- _ => elim H
             | H : (str_int _ ++ _)%string = _ |- _ =>
                 apply Last in H; discriminate H
             | H : _ = (str_int _ ++ _)%string |- _ =>
                 symmetry in H; apply Last in H; discriminate H
             end;
      try discriminate; try lia; auto.
Qed.

Lemma valid_body_tree_fragments_witness :
  In "3 past failure(s)" (dt_explanation_parts Demo.struggling)
  /\ In "no internet access" (dt_explanation_parts Demo.struggling).
Proof.
  destruct (valid_body_tree_fragments Demo.struggling eq_refl)
    as (_ & P & I & _).
  split; [apply P; vm_compute; discriminate | apply I; reflexivity].
Defined.

Lemma post_predict_raw_args str body g r m a :
  In (Call r m a) (trace_of (post_predict str body g)) ->
  r <> the_logistic_model ->
  a = input_array body.
Proof.
  destruct (validate body) eqn:V.
  2:{ rewrite post_predict_invalid by assumption. intros []. }
  rewrite post_predict_valid by assumption. unfold trace_of at 1; simpl.
  destruct (logistic_model g) as [lm|] eqn:Hl;
    [destruct (decision_tree_model g) as [dt|] eqn:Hd;
     [destruct (scaler g) as [sc|] eqn:Hs|]|];
    try (rewrite predict_body_not_loaded by auto; intros []).
  destruct (predict_body_loaded body g lm dt sc) as (r' & t & E & R);
    [now repeat split|].
  rewrite E. unfold trace_of; simpl. intros I N.
  destruct (body_run_calls _ _ _ _ _ _ R) as (_ & _ & H3 & _ & H5 & _).
  destruct r.
  - exact (proj2 (H3 m a I)).
  - now elim N.
  - exact (proj2 (H5 m a I)).
Qed.

Lemma float64_of_Z_nonneg (z : Z) :
  (0 <= z)%Z -> (0 <= float64_of_Z z)%Q.
Proof.
  intros H. unfold float64_of_Z.
  destruct (Z.abs z <? 2 ^ 53)%Z eqn:E.
  - unfold Qle; simpl. lia.
  - apply Z.ltb_ge in E. rewrite Z.abs_eq in * by assumption.
    assert (Hz : (0 < z)%Z) by lia.
    rewrite (Z.sgn_pos z Hz), Z.mul_1_l.
    set (e := (Z.log2 z - 52)%Z).
    assert (He : (0 < 2 ^ e)%Z).
    { apply Z.pow_pos_nonneg; [lia|]. subst e.
      pose proof (Z.log2_le_mono _ _ E) as L.
      rewrite Z.log2_pow2 in L by lia. lia. }
    assert (M : (0 <= round_half_even (inject_Z z / inject_Z (2 ^ e)))%Z).
    { rewrite <- (round_half_even_Z 0) at 1. apply round_half_even_mono.
      apply Qle_shift_div_l.
      - unfold Qlt; simpl. lia.
      - unfold Qle; simpl. lia. }
    unfold Qle; simpl. nia.
Qed.

(** X14.  Validation protects the objects: whatever the state, the scaler
    and the decision tree are only ever called on one row of seven numbers
    that are all non-negative, with attendance, quiz score and midterm score
    at most 100 and the internet flag equal to 0 or 1. *)
Theorem objects_see_validated_features
    (str : exn -> string) (body : StudentData) (g : globals)
    (r : receiver) (m : method) (a : ndarray) :
  In (Call r m a) (trace_of (post_predict str body g)) ->
  r <> the_logistic_model ->
  exists row,
    a = [row]
    /\ length row = 7%nat
    /\ Forall (fun x => 0 <= x)%Q row
    /\ (nth 0 row 0 <= 100)%Q
    /\ (nth 3 row 0 <= 100)%Q
    /\ (nth 4 row 0 <= 100)%Q
    /\ (nth 5 row 0 = 0 \/ nth 5 row 0 = 1)%Q.
Proof.
  intros I N. rewrite (post_predict_raw_args str body g r m a I N).
  assert (V : validate body = true).
  { destruct (validate body) eqn:V; [reflexivity|].
    rewrite post_predict_invalid in I by assumption. destruct I. }
  rewrite (input_array_valid body V).
  apply validate_within_bounds in V.
  destruct V as ((A0 & A1) & S0 & C0 & (Q0 & Q1) & (M0 & M1) & Hi & P0).
  eexists. split; [reflexivity|]. split; [reflexivity|].
  assert (Z0 : forall z, (0 <= z)%Z -> (0 <= inject_Z z)%Q).
  { intros z Hz. unfold Qle; simpl. lia. }
  split; [|split; [|split; [|split]]]; try exact A1; try exact Q1; try exact M1.
  - destruct ((assignments_completed body <? 2 ^ 64)
              && (past_failures body <? 2 ^ 64))%Z;
      repeat (apply Forall_cons || apply Forall_nil);
      try assumption;
      try (apply float64_of_Z_nonneg; assumption);
      apply Z0; lia.
  - cbn [nth]. destruct Hi as [-> | ->]; [now left | now right].
Qed.

Lemma objects_see_validated_features_witness :
  exists row,
    input_array Demo.struggling = [row]
    /\ length row = 7%nat
    /\ Forall (fun x => 0 <= x)%Q row.
Proof.
  destruct (objects_see_validated_features Demo.str Demo.struggling Demo.loaded
              the_decision_tree_model m_predict (input_array Demo.struggling))
    as (row & E & L & F & _).
  - vm_compute. tauto.
  - discriminate.
  - exists row. now repeat split.
Defined.

(* ===================================================================== *)
(** ** The test script                                                    *)
(* ===================================================================== *)

Lemma ends_with_cons {A} (a : A) (l tail : list A) :
  (exists before, l = before ++ tail) ->
  exists before, a :: l = before ++ tail.
Proof. intros (b & ->). now exists (a :: b). Qed.

Lemma ends_with_app {A} (x l tail : list A) :
  (exists before, l = before ++ tail) ->
  exists before, x ++ l = before ++ tail.
Proof. intros (b & ->). exists (x ++ b). apply app_assoc. Qed.

Lemma run_eq {A} (m : M A) (g : globals) (a : A) :
  response_of (m g) = Ok a -> globals_of (m g) = g ->
  m g = (Ok a, g, trace_of (m g)).
Proof.
  unfold response_of, globals_of, trace_of.
  destruct (m g) as [[r g1] t]; simpl. now intros -> ->.
Qed.

Section TestScript.

Variable requests_get : string -> result TestBackend.Response.
Variable requests_post : string -> json -> result TestBackend.Response.
Variable is_RequestException : exn -> bool.
Variable str : exn -> string.
Variable format : option json -> string.
Variable json_dumps : json -> string.

#[local, warnings="-notation-for-abbreviation"]
Notation test_health_check :=
  (TestBackend.test_health_check requests_get is_RequestException str format).
#[local, warnings="-notation-for-abbreviation"]
Notation test_root_endpoint :=
  (TestBackend.test_root_endpoint requests_get is_RequestException str format).
#[local, warnings="-notation-for-abbreviation"]
Notation test_predict_endpoint :=
  (TestBackend.test_predict_endpoint requests_post is_RequestException str format
     json_dumps).
#[local, warnings="-notation-for-abbreviation"]
Notation main :=
  (TestBackend.main requests_get requests_post is_RequestException str format
     json_dumps).

Ltac run_test :=
  cbv [TestBackend.test_health_check TestBackend.test_root_endpoint
       TestBackend.test_predict_endpoint TestBackend.try_except_class
       TestBackend.print TestBackend.get bind ret raise emit lift
       response_of globals_of trace_of fst snd].

Ltac page_test url :=
  run_test;
  destruct (requests_get url) as [r|e];
  [ destruct (TestBackend.status_code r =? 200)%Z eqn:Es;
    [ apply Z.eqb_eq in Es;
      destruct (TestBackend.json r) as [body|e] eqn:Ej;
      [ split; [reflexivity|]; split; [|discriminate];
        split; [intros _; now exists r, body | reflexivity]
      | simpl; destruct (is_RequestException e) eqn:Ec; simpl;
        (split; [reflexivity|]); split;
        try (split; [discriminate|]; intros (r' & b & E & _ & Ej');
             injection E as <-; congruence);
        try discriminate;
        intros e' E; injection E as <-; exact Ec ]
    | apply Z.eqb_neq in Es; split; [reflexivity|]; split; [|discriminate];
      split; [discriminate|]; intros (r' & b & E & Es' & _);
      injection E as <-; contradiction ]
  | simpl; destruct (is_RequestException e) eqn:Ec; simpl;
    (split; [reflexivity|]); split;
    try (split; [discriminate|]; intros (r' & b & E & _); discriminate E);
    try discriminate;
    intros e' E; injection E as <-; exact Ec ].

Lemma test_health_check_cases (g : globals) :
  globals_of (test_health_check g) = g
  /\ (response_of (test_health_check g) = Ok true
      <-> exists r body,
            requests_get (TestBackend.BASE_URL ++ "/health") = Ok r
            /\ TestBackend.status_code r = 200%Z
            /\ TestBackend.json r = Ok body)
  /\ (forall e, response_of (test_health_check g) = Raise e ->
                is_RequestException e = false).
Proof. page_test (TestBackend.BASE_URL ++ "/health")%string. Qed.

Lemma test_root_endpoint_cases (g : globals) :
  globals_of (test_root_endpoint g) = g
  /\ (response_of (test_root_endpoint g) = Ok true
      <-> exists r body,
            requests_get (TestBackend.BASE_URL ++ "/") = Ok r
            /\ TestBackend.status_code r = 200%Z
            /\ TestBackend.json r = Ok body)
  /\ (forall e, response_of (test_root_endpoint g) = Raise e ->
                is_RequestException e = false).
Proof. page_test (TestBackend.BASE_URL ++ "/")%string. Qed.

Lemma test_predict_endpoint_cases (g : globals) :
  globals_of (test_predict_endpoint g) = g
  /\ (response_of (test_predict_endpoint g) = Ok true
      <-> exists r items,
            requests_post (TestBackend.BASE_URL ++ "/predict")
              TestBackend.sample_data = Ok r
            /\ TestBackend.status_code r = 200%Z
            /\ TestBackend.json r = Ok (JDict items))
  /\ (forall e, response_of (test_predict_endpoint g) = Raise e ->
                is_RequestException e = false).
Proof.
  run_test.
  destruct (requests_post (TestBackend.BASE_URL ++ "/predict")
              TestBackend.sample_data) as [r|e].
  - destruct (TestBackend.status_code r =? 200)%Z eqn:Es.
    + apply Z.eqb_eq in Es.
      destruct (TestBackend.json r) as [body|e] eqn:Ej.
      * destruct body as [z|q|s|items];
          try (simpl;
               destruct (is_RequestException
                           (PyException "AttributeError"
                              "object has no attribute 'get'")) eqn:Ec; simpl;
               (split; [reflexivity|]); split;
               try (split; [discriminate|];
                    intros (r' & it & E & _ & Ej'); injection E as <-;
                    congruence);
               try discriminate;
               intros e' E; injection E as <-; exact Ec).
        split; [reflexivity|]. split; [|discriminate].
        split; [intros _; now exists r, items | reflexivity].
      * simpl. destruct (is_RequestException e) eqn:Ec; simpl;
          (split; [reflexivity|]); split;
          try (split; [discriminate|];
               intros (r' & it & E & _ & Ej'); injection E as <-; congruence);
          try discriminate;
          intros e' E; injection E as <-; exact Ec.
    + apply Z.eqb_neq in Es. split; [reflexivity|]. split; [|discriminate].
      split; [discriminate|]. intros (r' & it & E & Es' & _).
      injection E as <-. contradiction.
  - simpl. destruct (is_RequestException e) eqn:Ec; simpl;
      (split; [reflexivity|]); split;
      try (split; [discriminate|]; intros (r' & it & E & _); discriminate E);
      try discriminate;
      intros e' E; injection E as <-; exact Ec.
Qed.

(** X15.  A test of the script passes exactly when its request was answered
    with status 200 and a body that could be read (for [/predict], a JSON
    object); any other status and any transport failure make it return
    [False].  No [RequestException] ever escapes a test: a server that is
    down fails the tests, it does not crash the script. *)
Theorem tests_pass_exactly_on_200 (g : globals) :
  (response_of (test_health_check g) = Ok true
   <-> exists r body,
         requests_get (TestBackend.BASE_URL ++ "/health") = Ok r
         /\ TestBackend.status_code r = 200%Z
         /\ TestBackend.json r = Ok body)
  /\ (response_of (test_root_endpoint g) = Ok true
      <-> exists r body,
            requests_get (TestBackend.BASE_URL ++ "/") = Ok r
            /\ TestBackend.status_code r = 200%Z
            /\ TestBackend.json r = Ok body)
  /\ (response_of (test_predict_endpoint g) = Ok true
      <-> exists r items,
            requests_post (TestBackend.BASE_URL ++ "/predict")
              TestBackend.sample_data = Ok r
            /\ TestBackend.status_code r = 200%Z
            /\ TestBackend.json r = Ok (JDict items))
  /\ (forall e,
        response_of (test_health_check g) = Raise e
        \/ response_of (test_root_endpoint g) = Raise e
        \/ response_of (test_predict_endpoint g) = Raise e ->
        is_RequestException e = false).
Proof.
  destruct (test_health_check_cases g) as (_ & H1 & H2).
  destruct (test_root_endpoint_cases g) as (_ & R1 & R2).
  destruct (test_predict_endpoint_cases g) as (_ & P1 & P2).
  repeat (split; [assumption|]).
  intros e [E | [E | E]]; eauto.
Qed.

(** X16.  The verdict of the script is the conjunction of its tests: when
    the three tests return, [main] returns, its last two lines are the count
    of passed tests out of 3 and then "All tests passed" exactly when all
    three returned [True], "Some tests failed" otherwise. *)
Theorem main_verdict (g : globals) (b1 b2 b3 : bool) :
  response_of (test_health_check g) = Ok b1 ->
  response_of (test_root_endpoint g) = Ok b2 ->
  response_of (test_predict_endpoint g) = Ok b3 ->
  response_of (main g) = Ok tt
  /\ exists before,
       trace_of (main g)
       = before
         ++ [ Print (TestBackend.newline ++ "Total: "
                     ++ str_int (Z.b2z b1 + Z.b2z b2 + Z.b2z b3)
                     ++ "/3 tests passed");
              Print (TestBackend.newline
                     ++ (if b1 && b2 && b3
                         then "🎉 All tests passed! Backend is working correctly."
                         else "⚠️  Some tests failed. Please check the server logs.")) ].
Proof.
  intros E1 E2 E3.
  pose proof (run_eq _ g b1 E1 (proj1 (test_health_check_cases g))) as T1.
  pose proof (run_eq _ g b2 E2 (proj1 (test_root_endpoint_cases g))) as T2.
  pose proof (run_eq _ g b3 E3 (proj1 (test_predict_endpoint_cases g))) as T3.
  set (t1 := trace_of (test_health_check g)) in *.
  set (t2 := trace_of (test_root_endpoint g)) in *.
  set (t3 := trace_of (test_predict_endpoint g)) in *.
  clearbody t1 t2 t3.
  unfold TestBackend.main, bind, TestBackend.print, emit.
  rewrite T1, T2, T3.
  destruct b1, b2, b3; cbv [TestBackend.print_results TestBackend.count_passed
                            bind TestBackend.print emit ret length Z.of_nat
                            Pos.of_succ_nat Pos.succ Z.eqb Z.add Pos.add
                            Pos.eqb response_of trace_of fst snd andb Z.b2z];
    (split; [reflexivity|]);
    repeat first [ solve [exists []; reflexivity]
                 | apply ends_with_cons
                 | apply ends_with_app ].
Qed.

End TestScript.

Lemma tests_pass_exactly_on_200_witness :
  response_of (TestBackend.test_predict_endpoint DemoClient.up_post
                 DemoClient.is_RequestException Demo.str DemoClient.format
                 DemoClient.json_dumps ModelLoader.initial) = Ok true
  /\ response_of (TestBackend.test_health_check DemoClient.down_get
                    DemoClient.is_RequestException Demo.str DemoClient.format
                    ModelLoader.initial) = Ok false.
Proof.
  split.
  - apply (tests_pass_exactly_on_200 DemoClient.up_get DemoClient.up_post
             DemoClient.is_RequestException Demo.str DemoClient.format
             DemoClient.json_dumps ModelLoader.initial).
    eexists _, _. split; [reflexivity|]. split; [reflexivity|].
    vm_compute. reflexivity.
  - reflexivity.
Defined.

Lemma main_verdict_witness :
  exists before,
    trace_of (TestBackend.main DemoClient.down_get DemoClient.down_post
                DemoClient.is_RequestException Demo.str DemoClient.format
                DemoClient.json_dumps ModelLoader.initial)
    = before
      ++ [ Print (TestBackend.newline ++ "Total: 0/3 tests passed");
           Print (TestBackend.newline
                  ++ "⚠️  Some tests failed. Please check the server logs.") ].
Proof.
  apply (main_verdict DemoClient.down_get DemoClient.down_post
           DemoClient.is_RequestException Demo.str DemoClient.format
           DemoClient.json_dumps ModelLoader.initial false false false);
    reflexivity.
Defined.

Lemma Qltb_ge (x y : Q) : Qltb x y = false <-> (y <= x)%Q.
Proof.
  unfold Qltb. rewrite negb_false_iff. apply Qle_bool_iff.
Qed.

Lemma fragments_fallback (lp : npscalar) (m q s a : bool) :
  contains "based on overall academic performance indicators"
    (explanation_text lp (fragments m q s a))
  = negb (m || q || s || a)
  /\ contains "because of" (explanation_text lp (fragments m q s a))
     = (m || q || s || a).
Proof.
  unfold explanation_text, risk_phrase.
  destruct (eq_one lp), m, q, s, a; vm_compute; split; reflexivity.
Qed.

(** X17.  The logistic-regression sentence gives reasons or the fallback,
    never both and never neither: it speaks of "overall academic performance
    indicators" exactly when the midterm and quiz scores are at least 70,
    the study hours at least 10 and the attendance at least 75, and it says
    "because of" exactly when one of the four is under its threshold,
    whatever the label. *)
Theorem fallback_exactly_when_nothing_fires (body : StudentData) (lp : npscalar) :
  (contains "based on overall academic performance indicators"
     (explanation_text lp (explanation_parts body)) = true
   <-> (70 <= midterm_score body)%Q /\ (70 <= quiz_score body)%Q
       /\ (10 <= study_hours body)%Q /\ (75 <= attendance body)%Q)
  /\ (contains "because of" (explanation_text lp (explanation_parts body)) = true
      <-> (midterm_score body < 70)%Q \/ (quiz_score body < 70)%Q
          \/ (study_hours body < 10)%Q \/ (attendance body < 75)%Q).
Proof.
  rewrite explanation_parts_fragments.
  destruct (fragments_fallback lp (Qltb (midterm_score body) 70)
              (Qltb (quiz_score body) 70) (Qltb (study_hours body) 10)
              (Qltb (attendance body) 75)) as (F & B).
  rewrite F, B. rewrite negb_true_iff, !orb_false_iff, !orb_true_iff.
  rewrite !Qltb_ge, !Qltb_lt. tauto.
Qed.
